(** * QuickVC audio conversion scripts: a shallow embedding

    The repository holds three small command line scripts that turn an audio
    file (mostly M4A) into a mono WAV file at a requested sample rate:

    - [m4a_to_wav.py]: [convert_m4a_to_wav_librosa],
      [convert_any_audio_to_wav] and the batch driver
      [convert_directory_librosa];
    - [m4a_converter_fallback.py]: [convert_m4a_with_audioread] and
      [convert_with_simple_fallback];
    - [m4a_ffmpeg_converter.py]: [check_ffmpeg], [install_ffmpeg_instructions]
      and [convert_m4a_to_wav].

    The scripts are orchestration code around third-party decoders.  The
    decoders, the resampler, the WAV writer and the [ffmpeg] executable are
    therefore fields of a record [World]; the scripts themselves are embedded
    as programs of a small monad that threads the file system, collects the
    observable events (external calls with their outcome, printed lines) and
    propagates Python exceptions. *)

From Stdlib Require Import Ascii ZArith QArith Lqa Lia.
From stdpp Require Import gmap strings list pretty.

Open Scope string_scope.
Open Scope Z_scope.
Open Scope list_scope.

(** ** Python strings *)

Module pystr.

(** [s[n:]] and [s[:n]] for a non-negative [n]. *)
Fixpoint drop (n : nat) (s : string) : string :=
  match n, s with
  | O, _ => s
  | S _, EmptyString => EmptyString
  | S n', String _ s' => drop n' s'
  end.

Fixpoint take (n : nat) (s : string) : string :=
  match n, s with
  | O, _ => EmptyString
  | S _, EmptyString => EmptyString
  | S n', String a s' => String a (take n' s')
  end.

(** [s.rfind(c)] for a one-character [c]: the index of the last occurrence,
    [-1] when there is none.  [i] is the index of the head of [s], [last]
    the answer so far. *)
Fixpoint rfind_from (c : ascii) (s : string) (i last : Z) : Z :=
  match s with
  | EmptyString => last
  | String a s' => rfind_from c s' (i + 1) (if Ascii.eqb a c then i else last)
  end.

Definition rfind (c : ascii) (s : string) : Z := rfind_from c s 0 (-1).

(** [s.split(c)]: always at least one field. *)
Fixpoint split (c : ascii) (s : string) : list string :=
  match s with
  | EmptyString => [EmptyString]
  | String a s' =>
      if Ascii.eqb a c then EmptyString :: split c s'
      else match split c s' with
           | [] => [String a EmptyString]
           | w :: ws => String a w :: ws
           end
  end.

(** [sep.join(l)]. *)
Fixpoint join (sep : string) (l : list string) : string :=
  match l with
  | [] => EmptyString
  | [x] => x
  | x :: l' => x +:+ sep +:+ join sep l'
  end.

(** [s.lstrip(c)] for a one-character [c]. *)
Fixpoint lstrip (c : ascii) (s : string) : string :=
  match s with
  | String a s' => if Ascii.eqb a c then lstrip c s' else s
  | EmptyString => EmptyString
  end.

(** [s.lower()] on the ASCII letters.  The scripts compare the result with
    ['.m4a'] only, and no character outside ASCII lower-cases to [m] or
    [a], so the comparison is decided by the ASCII letters. *)
Definition lower_ascii (a : ascii) : ascii :=
  let n := N_of_ascii a in
  if ((65 <=? n) && (n <=? 90))%N then ascii_of_N (n + 32) else a.

Fixpoint lower (s : string) : string :=
  match s with
  | EmptyString => EmptyString
  | String a s' => String (lower_ascii a) (lower s')
  end.

(** [s.endswith(t)]. *)
Definition endswith (s t : string) : bool :=
  String.eqb (drop (String.length s - String.length t) s) t
  && (String.length t <=? String.length s)%nat.

(** [s.startswith(pre)]. *)
Fixpoint startswith (s pre : string) {struct pre} : bool :=
  match pre with
  | EmptyString => true
  | String a pre' =>
      match s with
      | String b s' => Ascii.eqb a b && startswith s' pre'
      | EmptyString => false
      end
  end.

(** Truth value of a string in a condition: the empty string is false. *)
Definition truthy (s : string) : bool :=
  match s with EmptyString => false | _ => true end.

Definition len (s : string) : Z := Z.of_nat (String.length s).

End pystr.

(** ** Python exceptions

    Only subclasses of [Exception] are modelled: these are what a decoder, a
    writer, an import or [subprocess.run] raises.  [except Exception] catches
    every one of them; [except FileNotFoundError] only the one class. *)

Inductive exn_class :=
| ValueError
| FileNotFoundError
| PermissionError
| ImportError
| RuntimeError.

Record exn := mk_exn { exn_cls : exn_class; exn_msg : string }.

Global Instance exn_class_eq_dec : EqDecision exn_class.
Proof. solve_decision. Defined.

Global Instance exn_eq_dec : EqDecision exn.
Proof. solve_decision. Defined.

(** ** pathlib: pure POSIX paths (CPython 3.8 to 3.13)

    [Path(s)] keeps the root (["/"], or ["//"] for exactly two leading
    slashes) and the list of components without empty and ["."] ones. *)

Module pathlib.

Record Path := mk_path { root : string; parts : list string }.

Global Instance Path_eq_dec : EqDecision Path.
Proof. solve_decision. Defined.

Definition sep : ascii := "/"%char.

(** [_PosixFlavour.splitroot]. *)
Definition splitroot (part : string) : string * string :=
  match part with
  | String a _ =>
      if Ascii.eqb a sep then
        let stripped := pystr.lstrip sep part in
        if (String.length part - String.length stripped =? 2)%nat
        then ("//", stripped) else ("/", stripped)
      else ("", part)
  | EmptyString => ("", part)
  end.

(** The components kept by [parse_parts]. *)
Definition keep (x : string) : bool :=
  pystr.truthy x && negb (String.eqb x ".").

Definition of_str (s : string) : Path :=
  let '(r, rel) := splitroot s in
  mk_path r (List.filter keep (pystr.split sep rel)).

(** [str(p)]. *)
Definition to_str (p : Path) : string :=
  match root p, parts p with
  | EmptyString, [] => "."
  | r, ps => r +:+ pystr.join "/" ps
  end.

(** [p.name]: the last component, [''] when there is none. *)
Definition name (p : Path) : string := List.last (parts p) "".

(** [p.suffix]: from the last dot of the name, unless the dot is the first
    or the last character. *)
Definition suffix (p : Path) : string :=
  let n := name p in
  let i := pystr.rfind "."%char n in
  if (0 <? i) && (i <? pystr.len n - 1) then pystr.drop (Z.to_nat i) n else "".

(** [p.stem]. *)
Definition stem (p : Path) : string :=
  let n := name p in
  let i := pystr.rfind "."%char n in
  if (0 <? i) && (i <? pystr.len n - 1) then pystr.take (Z.to_nat i) n else n.

(** [p.with_suffix(sfx)] for a well-formed suffix [sfx] (the scripts pass
    ['.wav']): [ValueError] on an empty name. *)
Definition with_suffix (p : Path) (sfx : string) : exn + Path :=
  let n := name p in
  if negb (pystr.truthy n)
  then inl (mk_exn ValueError ("PosixPath('" +:+ to_str p +:+ "') has an empty name"))
  else
    let old := suffix p in
    let n' := if negb (pystr.truthy old) then n +:+ sfx
              else pystr.take (String.length n - String.length old) n +:+ sfx in
    inr (mk_path (root p) (removelast (parts p) ++ [n'])).

(** [p / key] for a string [key]: a rooted key replaces [p]. *)
Definition truediv (p : Path) (key : string) : Path :=
  let k := of_str key in
  if pystr.truthy (root k) then k
  else mk_path (root p) (parts p ++ parts k).

End pathlib.

(** ** The world outside the scripts

    File contents are byte strings, decoded audio is a list of samples.  The
    samples of the audioread path are exact: an [int16] divided by [32768.0]
    is representable in [float32], and so is the mean of two such values,
    so rational numbers (kept in lowest terms) describe them without
    rounding. *)

Abbreviation bytes := (list Byte.byte).
Abbreviation samples := (list Q).

(** What a writer leaves behind: the finished file, or an exception together
    with the partial file it may have left at the path (the scripts never
    remove it). *)
Inductive write_result :=
| Written (data : bytes)
| WriteFailed (e : exn) (partial : option bytes).

(** [pydub.AudioSegment]. *)
Record AudioSegment := mk_segment {
  seg_frame_rate : Z;
  seg_channels : Z;
  seg_data : bytes
}.

(** The object [audioread.audio_open] returns: its properties and what
    iterating over it yields (the frames, or an exception while decoding). *)
Record AudioFile := mk_audio_file {
  samplerate : Z;
  duration : Q;
  channels : Z;
  read_frames : exn + list bytes
}.

(** [subprocess.CompletedProcess], and the file the process wrote at its
    output argument, if it wrote one. *)
Record CompletedProcess := mk_completed {
  returncode : Z;
  stderr : string;
  proc_output : option bytes
}.

Record World := mk_world {
  (** [librosa.load(path, sr=sr, mono=True)] on the file at [path] *)
  librosa_load : string -> option bytes -> Z -> exn + samples;
  (** [librosa.resample(audio, orig_sr=.., target_sr=..)] *)
  librosa_resample : samples -> Z -> Z -> exn + samples;
  (** [soundfile.write(path, audio, sr)] *)
  sf_write : string -> samples -> Z -> write_result;
  (** [from pydub import AudioSegment] *)
  pydub_import : option exn;
  (** [AudioSegment.from_file(path, format="m4a")] *)
  pydub_from_file : string -> option bytes -> exn + AudioSegment;
  pydub_set_channels : AudioSegment -> Z -> exn + AudioSegment;
  pydub_set_frame_rate : AudioSegment -> Z -> exn + AudioSegment;
  (** [segment.export(path, format="wav")] *)
  pydub_export : string -> AudioSegment -> write_result;
  (** [import audioread] *)
  audioread_import : option exn;
  (** [audioread.audio_open(path)] *)
  audioread_open : string -> option bytes -> exn + AudioFile;
  (** [subprocess.run(argv, capture_output=True, text=True)]; the second
      argument is the content of the file named after [-i], if any *)
  subprocess_run : list string -> option bytes -> exn + CompletedProcess;
  (** the entry names [os.scandir] lists for a directory, in its order *)
  scandir : string -> list string;
  (** [Path.mkdir(parents=True, exist_ok=True)] *)
  mkdir : string -> option exn
}.

(** ** Observable events *)

Inductive call :=
| LibrosaLoad (path : string) (sr : Z)
| LibrosaResample (audio : samples) (orig_sr target_sr : Z)
| SfWrite (path : string) (audio : samples) (sr : Z)
| Import (module : string)
| PydubFromFile (path : string)
| PydubSetChannels (n : Z)
| PydubSetFrameRate (sr : Z)
| PydubExport (path : string)
| AudioreadOpen (path : string)
| AudioreadRead (path : string)
| SubprocessRun (argv : list string)
| Glob (dir pattern : string)
| Mkdir (path : string).

Inductive status :=
| Ok
| Err (e : exn)
| Exit (rc : Z) (err : string).

Inductive event :=
| Print (line : string)
| Call (c : call) (s : status).

(** ** The monad of the scripts *)

Inductive outcome (A : Type) :=
| Return (a : A)
| Raise (e : exn).
Arguments Return {A} a.
Arguments Raise {A} e.

Definition M (A : Type) : Type :=
  gmap string bytes -> outcome A * gmap string bytes * list event.

Definition ret {A} (a : A) : M A := fun fs => (Return a, fs, []).

Definition raise {A} (e : exn) : M A := fun fs => (Raise e, fs, []).

Definition bind {A B} (c : M A) (k : A -> M B) : M B :=
  fun fs =>
    match c fs with
    | (Return a, fs1, t1) =>
        let '(r, fs2, t2) := k a fs1 in (r, fs2, t1 ++ t2)
    | (Raise e, fs1, t1) => (Raise e, fs1, t1)
    end.

Global Instance M_bind : MBind M := fun A B k c => bind c k.
Global Instance M_ret : MRet M := @ret.

(** [try: c  except Exception as e: h e]. *)
Definition try_except {A} (c : M A) (h : exn -> M A) : M A :=
  fun fs =>
    match c fs with
    | (Return a, fs1, t1) => (Return a, fs1, t1)
    | (Raise e, fs1, t1) =>
        let '(r, fs2, t2) := h e fs1 in (r, fs2, t1 ++ t2)
    end.

(** [try: c  except cls: h]: other classes propagate. *)
Definition try_except_cls {A} (cls : exn_class) (c : M A) (h : M A) : M A :=
  try_except c (fun e => if decide (exn_cls e = cls) then h else raise e).

Definition print (line : string) : M unit :=
  fun fs => (Return tt, fs, [Print line]).

Definition read_file (path : string) : M (option bytes) :=
  fun fs => (Return (fs !! path), fs, []).

(** A call that only computes. *)
Definition extern {A} (c : call) (r : exn + A) : M A :=
  fun fs =>
    match r with
    | inr a => (Return a, fs, [Call c Ok])
    | inl e => (Raise e, fs, [Call c (Err e)])
    end.

(** A call that writes the file at [path]. *)
Definition extern_write (c : call) (path : string) (r : write_result) : M unit :=
  fun fs =>
    match r with
    | Written data => (Return tt, <[path := data]> fs, [Call c Ok])
    | WriteFailed e None => (Raise e, fs, [Call c (Err e)])
    | WriteFailed e (Some data) => (Raise e, <[path := data]> fs, [Call c (Err e)])
    end.

(** An import statement. *)
Definition import (module : string) (r : option exn) : M unit :=
  extern (Import module) (match r with Some e => inl e | None => inr tt end).

(** [c1] returned from the function with [Some v], or fell through to the
    statements after it. *)
Definition or_next {A} (c1 c2 : M (option A)) : M (option A) :=
  r ← c1; match r with Some v => ret (Some v) | None => c2 end.

(** Running a program: result, final file system and events. *)
Definition result_of {A} (x : outcome A * gmap string bytes * list event) : outcome A :=
  x.1.1.
Definition files_of {A} (x : outcome A * gmap string bytes * list event)
  : gmap string bytes :=
  x.1.2.
Definition events_of {A} (x : outcome A * gmap string bytes * list event) : list event :=
  x.2.

(** ** numpy on the audioread path *)

Module numpy.

(** One [int16] of the buffer: audioread yields little-endian 16-bit PCM,
    and [np.int16] is little-endian on the usual hosts. *)
Definition int16_le (lo hi : Byte.byte) : Z :=
  let v := Z.of_N (Byte.to_N lo) + 256 * Z.of_N (Byte.to_N hi) in
  if v <? 32768 then v else v - 65536.

(** [np.frombuffer(b, dtype=np.int16)]: [ValueError] on an odd size. *)
Fixpoint frombuffer_int16 (b : bytes) : option (list Z) :=
  match b with
  | [] => Some []
  | [_] => None
  | lo :: hi :: b' => cons (int16_le lo hi) <$> frombuffer_int16 b'
  end.

(** [.astype(np.float32) / 32768.0]. *)
Definition to_float (v : Z) : Q := Qred (inject_Z v / 32768).

(** [a.reshape((-1, 2)).mean(axis=1)]: [ValueError] on an odd size. *)
Fixpoint reshape2_mean (a : samples) : option samples :=
  match a with
  | [] => Some []
  | [_] => None
  | x :: y :: a' => cons (Qred ((x + y) / 2)) <$> reshape2_mean a'
  end.

Definition frombuffer_error : exn :=
  mk_exn ValueError "buffer size must be a multiple of element size".

Definition reshape_error (size : nat) : exn :=
  mk_exn ValueError
    ("cannot reshape array of size " +:+ pretty (Z.of_nat size) +:+ " into shape (2)").

End numpy.

(** [s * n] for a string [s]. *)
Fixpoint str_repeat (s : string) (n : nat) : string :=
  match n with O => "" | S n' => s +:+ str_repeat s n' end.

Definition nl : string := String (ascii_of_nat 10) "".

Definition lift_sum {A} (r : exn + A) : M A :=
  match r with inl e => raise e | inr a => ret a end.

(** [str(Path(input_path).with_suffix('.wav'))]. *)
Definition with_suffix_wav (input_path : string) : exn + string :=
  match pathlib.with_suffix (pathlib.of_str input_path) ".wav" with
  | inl e => inl e
  | inr p => inr (pathlib.to_str p)
  end.

(** [if output_path is None: output_path = str(Path(input_path).with_suffix('.wav'))]:
    the value of [output_path] afterwards, or the [ValueError] of
    [with_suffix]. *)
Definition output_or_default (input_path : string) (output_path : option string)
  : exn + string :=
  match output_path with
  | Some p => inr p
  | None => with_suffix_wav input_path
  end.

Definition default_output (input_path : string) (output_path : option string) : M string :=
  lift_sum (output_or_default input_path output_path).

Section scripts.

Variable w : World.

(** *** The external calls as the scripts make them *)

Definition load (input_path : string) (sr : Z) : M samples :=
  data ← read_file input_path;
  extern (LibrosaLoad input_path sr) (librosa_load w input_path data sr).

Definition write (output_path : string) (audio : samples) (sr : Z) : M unit :=
  extern_write (SfWrite output_path audio sr) output_path (sf_write w output_path audio sr).

Definition resample (audio : samples) (orig_sr target_sr : Z) : M samples :=
  extern (LibrosaResample audio orig_sr target_sr)
         (librosa_resample w audio orig_sr target_sr).

Definition from_file (input_path : string) : M AudioSegment :=
  data ← read_file input_path;
  extern (PydubFromFile input_path) (pydub_from_file w input_path data).

Definition set_channels (a : AudioSegment) (n : Z) : M AudioSegment :=
  extern (PydubSetChannels n) (pydub_set_channels w a n).

Definition set_frame_rate (a : AudioSegment) (sr : Z) : M AudioSegment :=
  extern (PydubSetFrameRate sr) (pydub_set_frame_rate w a sr).

Definition export (a : AudioSegment) (output_path : string) : M unit :=
  extern_write (PydubExport output_path) output_path (pydub_export w output_path a).

Definition audio_open (input_path : string) : M AudioFile :=
  data ← read_file input_path;
  extern (AudioreadOpen input_path) (audioread_open w input_path data).

(** [subprocess.run(argv, capture_output=True, text=True)] for a command
    that reads [input] and may write [output]. *)
Definition run (argv : list string) (input output : option string) : M CompletedProcess :=
  fun fs =>
    match subprocess_run w argv (input ≫= (fs !!.)) with
    | inl e => (Raise e, fs, [Call (SubprocessRun argv) (Err e)])
    | inr p =>
        (Return p,
         match output, proc_output p with
         | Some path, Some data => <[path := data]> fs
         | _, _ => fs
         end,
         [Call (SubprocessRun argv) (Exit (returncode p) (stderr p))])
    end.

(** The command line of both ffmpeg conversions. *)
Definition ffmpeg_argv (input_path output_path : string) (sample_rate : Z) : list string :=
  ["ffmpeg"; "-i"; input_path; "-ar"; pretty sample_rate; "-ac"; "1"; "-y"; output_path].

(** *** m4a_to_wav.py *)

Definition convert_m4a_to_wav_librosa
    (input_path : string) (output_path : option string) (sample_rate : Z)
  : M (option string) :=
  try_except
    (audio ← load input_path sample_rate;
     output_path ← default_output input_path output_path;
     write output_path audio sample_rate;;
     print ("Converted: " +:+ input_path +:+ " -> " +:+ output_path);;
     ret (Some output_path))
    (fun e =>
       print ("Error converting " +:+ input_path +:+ ": " +:+ exn_msg e);;
       ret None).

(** Method 1 of [convert_any_audio_to_wav]: [Some p] when the block
    returned [p], [None] when control reaches the statements after it. *)
Definition method_librosa (input_path output_path : string) (sample_rate : Z)
  : M (option string) :=
  try_except
    (print ("Trying librosa for " +:+ input_path +:+ "...");;
     audio ← load input_path sample_rate;
     write output_path audio sample_rate;;
     print ("Converted: " +:+ input_path +:+ " -> " +:+ output_path);;
     ret (Some output_path))
    (fun e => print ("Librosa failed: " +:+ exn_msg e);; ret None).

(** Method 2, the body of [if file_ext == '.m4a']. *)
Definition method_pydub (input_path output_path : string) (sample_rate : Z)
  : M (option string) :=
  try_except
    (print ("Trying pydub for M4A file: " +:+ input_path +:+ "...");;
     import "pydub" (pydub_import w);;
     audio ← from_file input_path;
     audio ← set_channels audio 1;
     audio ← set_frame_rate audio sample_rate;
     export audio output_path;;
     print ("Converted: " +:+ input_path +:+ " -> " +:+ output_path);;
     ret (Some output_path))
    (fun e => print ("Pydub failed: " +:+ exn_msg e);; ret None).

(** Method 3. *)
Definition method_ffmpeg (input_path output_path : string) (sample_rate : Z)
  : M (option string) :=
  try_except
    (print ("Trying ffmpeg for " +:+ input_path +:+ "...");;
     result ← run (ffmpeg_argv input_path output_path sample_rate)
                  (Some input_path) (Some output_path);
     if returncode result =? 0 then
       print ("Converted: " +:+ input_path +:+ " -> " +:+ output_path);;
       ret (Some output_path)
     else
       print ("FFmpeg failed: " +:+ stderr result);;
       ret None)
    (fun e => print ("FFmpeg not available: " +:+ exn_msg e);; ret None).

Definition convert_any_audio_to_wav
    (input_path : string) (output_path : option string) (sample_rate : Z)
  : M (option string) :=
  output_path ← default_output input_path output_path;
  let file_ext := pystr.lower (pathlib.suffix (pathlib.of_str input_path)) in
  or_next (method_librosa input_path output_path sample_rate)
 (or_next (if String.eqb file_ext ".m4a"
           then method_pydub input_path output_path sample_rate
           else ret None)
 (or_next (method_ffmpeg input_path output_path sample_rate)
          (print ("All conversion methods failed for " +:+ input_path);;
           ret None))).

Definition supported_formats : list string :=
  ["*.mp3"; "*.m4a"; "*.flac"; "*.ogg"; "*.wav"; "*.aac"].

(** [fnmatch] for the patterns of [supported_formats]: a star, then
    literal text; the match is case-sensitive on POSIX. *)
Definition fnmatch (name pattern : string) : bool :=
  match pattern with
  | String "*" lit => pystr.endswith name lit
  | _ => String.eqb name pattern
  end.

(** [dir.glob(pattern)] for a pattern without a separator: the entries of
    [dir] whose name matches, each as a child of [dir].  The folder is one
    that can be listed: where [Path.glob] itself raises (a folder that
    cannot be examined) is outside the model. *)
Definition glob (dir : pathlib.Path) (pattern : string) : M (list pathlib.Path) :=
  extern (Glob (pathlib.to_str dir) pattern)
    (inr ((fun name => pathlib.mk_path (pathlib.root dir) (pathlib.parts dir ++ [name]))
            <$> List.filter (fun name => fnmatch name pattern)
                            (scandir w (pathlib.to_str dir)))).

(** [for format_pattern in patterns: audio_files.extend(dir.glob(format_pattern))]. *)
Fixpoint glob_all (dir : pathlib.Path) (patterns : list string) : M (list pathlib.Path) :=
  match patterns with
  | [] => ret []
  | pat :: patterns' =>
      found ← glob dir pat;
      more ← glob_all dir patterns';
      ret (found ++ more)
  end.

(** [for audio_file in audio_files: ...]: the results of the converter
    are dropped. *)
Fixpoint convert_each (output_path : pathlib.Path) (audio_files : list pathlib.Path)
    (sample_rate : Z) : M unit :=
  match audio_files with
  | [] => ret tt
  | audio_file :: rest =>
      let wav_file := pathlib.truediv output_path (pathlib.stem audio_file +:+ ".wav") in
      convert_any_audio_to_wav (pathlib.to_str audio_file)
                               (Some (pathlib.to_str wav_file)) sample_rate;;
      convert_each output_path rest sample_rate
  end.

Definition convert_directory_librosa
    (input_dir : string) (output_dir : option string) (sample_rate : Z) : M unit :=
  let input_path := pathlib.of_str input_dir in
  output_path ←
    match output_dir with
    | None => ret input_path
    | Some d =>
        let output_path := pathlib.of_str d in
        extern (Mkdir (pathlib.to_str output_path))
               (match mkdir w (pathlib.to_str output_path) with
                | Some e => inl e | None => inr tt end);;
        ret output_path
    end;
  audio_files ← glob_all input_path supported_formats;
  match audio_files with
  | [] => print ("No supported audio files found in " +:+ input_dir)
  | _ =>
      print ("Found " +:+ pretty (Z.of_nat (length audio_files))
               +:+ " audio files to convert...");;
      convert_each output_path audio_files sample_rate
  end.

(** *** m4a_converter_fallback.py *)

(** [np.frombuffer(audio_bytes, dtype=np.int16).astype(np.float32) / 32768.0]. *)
Definition decode_int16 (audio_bytes : bytes) : exn + samples :=
  match numpy.frombuffer_int16 audio_bytes with
  | Some a => inr (numpy.to_float <$> a)
  | None => inl numpy.frombuffer_error
  end.

(** The lines under [# Convert bytes to float32 audio]. *)
Definition bytes_to_audio (n_channels : Z) (audio_bytes : bytes) : exn + samples :=
  if n_channels =? 2 then
    match decode_int16 audio_bytes with
    | inl e => inl e
    | inr audio =>
        match numpy.reshape2_mean audio with
        | Some mono => inr mono
        | None => inl (numpy.reshape_error (length audio))
        end
    end
  else
    decode_int16 audio_bytes.

Definition convert_m4a_with_audioread
    (input_path : string) (output_path : option string) (sample_rate : Z)
  : M (option string) :=
  try_except
    (import "audioread" (audioread_import w);;
     output_path ← default_output input_path output_path;
     print ("Converting M4A using audioread: " +:+ input_path);;
     f ← audio_open input_path;
     let sr_native := samplerate f in
     audio_data ← extern (AudioreadRead input_path) (read_frames f);
     let audio_bytes := concat audio_data in
     audio ← lift_sum (bytes_to_audio (channels f) audio_bytes);
     audio ← (if negb (sr_native =? sample_rate)
              then resample audio sr_native sample_rate
              else ret audio);
     write output_path audio sample_rate;;
     print ("Converted: " +:+ input_path +:+ " -> " +:+ output_path);;
     ret (Some output_path))
    (fun e => print ("Audioread conversion failed: " +:+ exn_msg e);; ret None).

(** The loop [for backend in backends]: the body does not use [backend]
    except in its messages. *)
Fixpoint try_backends (backends : list string)
    (input_path output_path : string) (sample_rate : Z) : M (option string) :=
  match backends with
  | [] => ret None
  | backend :: backends' =>
      or_next
        (try_except
           (print ("Trying librosa with " +:+ backend +:+ " backend...");;
            audio ← load input_path sample_rate;
            write output_path audio sample_rate;;
            print ("Converted: " +:+ input_path +:+ " -> " +:+ output_path);;
            ret (Some output_path))
           (fun e =>
              print ("Backend " +:+ backend +:+ " failed: " +:+ exn_msg e);;
              ret None))
        (try_backends backends' input_path output_path sample_rate)
  end.

Definition convert_with_simple_fallback
    (input_path : string) (output_path : option string) (sample_rate : Z)
  : M (option string) :=
  output_path ← default_output input_path output_path;
  let backends := ["soundfile"; "audioread"] in
  or_next (try_backends backends input_path output_path sample_rate)
    (result ← convert_m4a_with_audioread input_path (Some output_path) sample_rate;
     match result with
     | Some p =>
         if pystr.truthy p then ret (Some p)
         else print ("All methods failed for " +:+ input_path);; ret None
     | None => print ("All methods failed for " +:+ input_path);; ret None
     end).

(** *** m4a_ffmpeg_converter.py *)

Definition check_ffmpeg : M bool :=
  try_except_cls FileNotFoundError
    (result ← run ["ffmpeg"; "-version"] None None;
     ret (returncode result =? 0))
    (ret false).

Definition install_ffmpeg_instructions : M unit :=
  print (nl +:+ str_repeat "=" 50);;
  print "FFmpeg is required for M4A conversion";;
  print (str_repeat "=" 50);;
  print (nl +:+ "Installation options:");;
  print (nl +:+ "1. Using conda:");;
  print "   conda install -c conda-forge ffmpeg";;
  print (nl +:+ "2. Using apt (Ubuntu/Debian):");;
  print "   sudo apt update && sudo apt install ffmpeg";;
  print (nl +:+ "3. Using homebrew (macOS):");;
  print "   brew install ffmpeg";;
  print (nl +:+ "4. Download from: https://ffmpeg.org/download.html");;
  print (nl +:+ str_repeat "=" 50).

Definition convert_m4a_to_wav
    (input_path : string) (output_path : option string) (sample_rate : Z) : M bool :=
  available ← check_ffmpeg;
  if negb available then
    install_ffmpeg_instructions;;
    ret false
  else
    output_path ← default_output input_path output_path;
    try_except
      (print ("Converting " +:+ input_path +:+ " to " +:+ output_path +:+ "...");;
       result ← run (ffmpeg_argv input_path output_path sample_rate)
                    (Some input_path) (Some output_path);
       if returncode result =? 0 then
         print ("✅ Successfully converted: " +:+ input_path +:+ " -> " +:+ output_path);;
         ret true
       else
         print ("❌ FFmpeg error: " +:+ stderr result);;
         ret false)
      (fun e => print ("❌ Error: " +:+ exn_msg e);; ret false).

End scripts.

(** *** m4a_ffmpeg_converter.py, the command line

    [argv] is [sys.argv], the script name first.  [os.path.exists] holds of
    the files of the file system and of the folders [is_dir] tells. *)

Module m4a_ffmpeg_converter.

Definition path_exists (is_dir : string -> bool) (path : string) : M bool :=
  data ← read_file path;
  ret (bool_decide (is_Some data) || is_dir path).

(** [output_file or Path(input_file).with_suffix('.wav')], formatted. *)
Definition shown_output (input_file : string) (output_file : option string) : M string :=
  match output_file with
  | Some o => if pystr.truthy o then ret o else lift_sum (with_suffix_wav input_file)
  | None => lift_sum (with_suffix_wav input_file)
  end.

Definition main (w : World) (is_dir : string -> bool) (argv : list string) : M unit :=
  match argv with
  | _ :: input_file :: rest =>
      let output_file := head rest in
      found ← path_exists is_dir input_file;
      if negb found then
        print ("❌ File not found: " +:+ input_file)
      else
        success ← convert_m4a_to_wav w input_file output_file 16000;
        if success : bool then
          print (nl +:+ "✅ Conversion complete!");;
          shown ← shown_output input_file output_file;
          print ("📁 Output file: " +:+ shown)
        else
          print (nl +:+ "❌ Conversion failed!")
  | _ => print "Usage: python m4a_ffmpeg_converter.py <input.m4a> [output.wav]"
  end.

End m4a_ffmpeg_converter.

(** ** Reading a run *)

(** The backend strategies of [convert_any_audio_to_wav]. *)
Inductive strategy := Librosa | Pydub | Ffmpeg.

Global Instance strategy_eq_dec : EqDecision strategy.
Proof. solve_decision. Defined.

(** Each strategy opens with one call of its own. *)
Definition strategy_of_call (c : call) : option strategy :=
  match c with
  | LibrosaLoad _ _ => Some Librosa
  | Import "pydub" => Some Pydub
  | SubprocessRun _ => Some Ffmpeg
  | _ => None
  end.

Definition strategy_of_event (ev : event) : option strategy :=
  match ev with
  | Call c _ => strategy_of_call c
  | Print _ => None
  end.

(** The strategies a run attempted, in the order it attempted them. *)
Definition attempts (t : list event) : list strategy := omap strategy_of_event t.

(** The path a call writes, if it is a writer. *)
Definition output_of_call (c : call) : option string :=
  match c with
  | SfWrite path _ _ => Some path
  | PydubExport path => Some path
  | SubprocessRun (["ffmpeg"; "-i"; _; "-ar"; _; "-ac"; _; "-y"; path]) => Some path
  | _ => None
  end.

Definition written_path (ev : event) : option string :=
  match ev with
  | Call c _ => output_of_call c
  | Print _ => None
  end.

(** The paths a run wrote or tried to write. *)
Definition written_paths (t : list event) : list string := omap written_path t.

(** The error text of a failed call: the message of its exception, or the
    standard error of a process that exited with a non-zero code. *)
Definition error_of_status (s : status) : option string :=
  match s with
  | Ok => None
  | Err e => Some (exn_msg e)
  | Exit rc err => if rc =? 0 then None else Some err
  end.

Definition error_of_event (ev : event) : option string :=
  match ev with
  | Call _ s => error_of_status s
  | Print _ => None
  end.

Definition errors (t : list event) : list string := omap error_of_event t.

Definition printed_line (ev : event) : option string :=
  match ev with
  | Print line => Some line
  | Call _ _ => None
  end.

(** The lines a run printed. *)
Definition printed (t : list event) : list string := omap printed_line t.

Definition is_call (P : call -> bool) (ev : event) : bool :=
  match ev with
  | Call c _ => P c
  | Print _ => false
  end.

Definition is_librosa_load (c : call) : bool :=
  match c with LibrosaLoad _ _ => true | _ => false end.

Definition is_resample (c : call) : bool :=
  match c with LibrosaResample _ _ _ => true | _ => false end.

Definition is_subprocess (c : call) : bool :=
  match c with SubprocessRun _ => true | _ => false end.

(** The calls of one kind in a run. *)
Definition calls (P : call -> bool) (t : list event) : list event :=
  List.filter (is_call P) t.

(** ** The orchestrator in the words of the specification

    Iterate over an ordered list of strategies; attempt each; on a failure
    proceed to the next; return the first success; when all have failed,
    print and return the sentinel. *)

Definition attempt (w : World) (s : strategy)
    (input_path output_path : string) (sample_rate : Z) : M (option string) :=
  match s with
  | Librosa => method_librosa w input_path output_path sample_rate
  | Pydub => method_pydub w input_path output_path sample_rate
  | Ffmpeg => method_ffmpeg w input_path output_path sample_rate
  end.

Definition is_m4a (input_path : string) : bool :=
  String.eqb (pystr.lower (pathlib.suffix (pathlib.of_str input_path))) ".m4a".

(** The priority order for an input. *)
Definition strategies (input_path : string) : list strategy :=
  [Librosa] ++ (if is_m4a input_path then [Pydub] else []) ++ [Ffmpeg].

Fixpoint first_success (candidates : list (M (option string)))
    (all_failed : M (option string)) : M (option string) :=
  match candidates with
  | [] => all_failed
  | c :: rest =>
      r ← c;
      match r with
      | Some path => ret (Some path)
      | None => first_success rest all_failed
      end
  end.

Definition convert_in_order (w : World)
    (input_path : string) (output_path : option string) (sample_rate : Z)
  : M (option string) :=
  output_path ← default_output input_path output_path;
  first_success
    ((fun s => attempt w s input_path output_path sample_rate) <$> strategies input_path)
    (print ("All conversion methods failed for " +:+ input_path);; ret None).

(** One attempt with the output path [o], read off its events: it made the
    opening call of [s] once and wrote nowhere but at [o]; it succeeded when
    no call failed and [o] was written, it failed when exactly one call
    failed and its error text ends the line printed last. *)
Definition attempt_succeeded (s : strategy) (o : string) (t : list event) : Prop :=
  attempts t = [s] /\ errors t = [] /\ written_paths t = [o].

Definition attempt_failed (s : strategy) (o : string) (t : list event) : Prop :=
  attempts t = [s] /\
  Forall (eq o) (written_paths t) /\
  exists m pre, errors t = [m] /\ last t = Some (Print (pre +:+ m)).

(** A run that follows the priority order [l] towards the output path [o]:
    failed attempts in the order of [l], closed either by a successful
    attempt, whose path is returned and after which nothing is attempted, or
    by the line printed when [l] is exhausted. *)
Inductive in_order (o : string)
  : list strategy -> outcome (option string) -> list event -> Prop :=
| in_order_success s rest t :
    attempt_succeeded s o t ->
    in_order o (s :: rest) (Return (Some o)) t
| in_order_failure s rest r t1 t2 :
    attempt_failed s o t1 ->
    in_order o rest r t2 ->
    in_order o (s :: rest) r (t1 ++ t2)
| in_order_exhausted line :
    in_order o [] (Return None) [Print line].

(** ** The mono down-mix in the words of the specification

    Each output sample is the arithmetic mean of the samples of one frame,
    a frame holding one sample per channel. *)

Definition mean (frame : samples) : Q :=
  Qred (fold_right Qplus 0%Q frame / inject_Z (Z.of_nat (length frame))).

Fixpoint frames_of (fuel n : nat) (a : samples) : list samples :=
  match fuel, a with
  | S fuel', _ :: _ => take n a :: frames_of fuel' n (drop n a)
  | _, _ => []
  end.

Definition downmix (n_channels : nat) (a : samples) : samples :=
  mean <$> frames_of (length a) n_channels a.

Definition is_sf_write (c : call) : bool :=
  match c with SfWrite _ _ _ => true | _ => false end.

(** ** The default output path in the words of the specification

    The extension of a file name is the text from its last dot on, provided
    the dot is neither the first nor the last character of the name; a name
    without such a dot has no extension.  Replacing the extension by [.wav]
    removes it and appends [.wav]. *)

(** The name cut at its last dot: what is before, and the rest from the dot
    on (empty when the name has no dot). *)
Fixpoint split_ext (name : string) : string * string :=
  match name with
  | EmptyString => ("", "")
  | String c rest =>
      let '(base, ext) := split_ext rest in
      if pystr.truthy ext then (String c base, ext)
      else if Ascii.eqb c "."%char then ("", name)
      else (String c base, "")
  end.

Definition replace_extension (name : string) : string :=
  let '(base, ext) := split_ext name in
  if pystr.truthy base && pystr.truthy ext && negb (String.eqb ext ".")
  then base +:+ ".wav"
  else name +:+ ".wav".

(** The input path, as pathlib reads and prints it (repeated and trailing
    slashes and [.] components dropped), with the extension of its last
    component replaced. *)
Definition wav_path_for (input_path : string) : string :=
  let p := pathlib.of_str input_path in
  pathlib.to_str
    (pathlib.mk_path (pathlib.root p)
       (removelast (pathlib.parts p) ++ [replace_extension (pathlib.name p)])).

(** A run from [fs] that writes at the path [o] only: every writing call
    names [o], and the files at the other paths are as before. *)
Definition writes_only_at {A} (o : string) (fs : gmap string bytes)
    (x : outcome A * gmap string bytes * list event) : Prop :=
  Forall (eq o) (written_paths (events_of x)) /\
  forall p, p <> o -> files_of x !! p = fs !! p.

(** A run that returns no path but [o]. *)
Definition returns_only (o : string)
    (x : outcome (option string) * gmap string bytes * list event) : Prop :=
  forall p, result_of x = Return (Some p) -> p = o.

(** A run that converted: it returned the path [o], and the file at [o]
    holds [data]. *)
Definition converted (o : string) (data : bytes)
    (x : outcome (option string) * gmap string bytes * list event) : Prop :=
  result_of x = Return (Some o) /\ files_of x !! o = Some data.

(** Two runs, from [fs] to [g] and from [fs'] to [g'], that made the same
    change: none, or the same data written at [o]. *)
Definition same_update (o : string) (fs g fs' g' : gmap string bytes) : Prop :=
  (g = fs /\ g' = fs') \/
  exists data, g = <[o := data]> fs /\ g' = <[o := data]> fs'.

(** A program that reads the file system at the path [i] only and writes it
    at the path [o] only: from two file systems that agree at [i] it
    returns the same value, makes the same calls and makes the same change,
    and every writing call names [o]. *)
Definition confined {A} (i o : string) (c : M A) : Prop :=
  forall fs fs', fs !! i = fs' !! i ->
    result_of (c fs) = result_of (c fs') /\
    events_of (c fs) = events_of (c fs') /\
    same_update o fs (files_of (c fs)) fs' (files_of (c fs')) /\
    Forall (eq o) (written_paths (events_of (c fs))).

(** A program that returns no path but [o]. *)
Definition returns_path (o : string) (c : M (option string)) : Prop :=
  forall fs, returns_only o (c fs).

(** ** A failure value that enumerates errors

    The value [v] returned to the caller enumerates the message [m] when [m]
    occurs in it; Python's [None] holds nothing. *)

Definition enumerates (v : option string) (m : string) : Prop :=
  match v with
  | Some text => exists pre post, text = pre +:+ m +:+ post
  | None => False
  end.

Definition fails {A} (r : exn + A) : Prop :=
  match r with inl _ => True | inr _ => False end.

(** No backend can decode the content [data] of [input_path]: librosa
    raises on it, pydub is missing or raises on it, and the ffmpeg conversion
    of it, to whatever output path and rate, cannot be started or exits with
    a non-zero code.  Nothing is asked of other commands: ffmpeg may well be
    installed and answer [ffmpeg -version]. *)
Definition undecodable (w : World) (input_path : string) (data : option bytes) : Prop :=
  (forall sr, fails (librosa_load w input_path data sr)) /\
  (is_Some (pydub_import w) \/ fails (pydub_from_file w input_path data)) /\
  (forall output_path sr,
     match subprocess_run w (ffmpeg_argv input_path output_path sr) data with
     | inl _ => True
     | inr p => returncode p <> 0
     end).

(** ** What the batch driver reports

    The driver drops the value of each conversion; what it reports is what
    the converter prints: a line [Converted: ...] for a success, a line
    [All conversion methods failed for ...] for a failure. *)

Definition count_lines (pre : string) (t : list event) : nat :=
  length (List.filter (fun line => pystr.startswith line pre) (printed t)).

Definition reported_successes (t : list event) : nat :=
  count_lines "Converted: " t.

Definition reported_failures (t : list event) : nat :=
  count_lines "All conversion methods failed for " t.

(** The calls of the per-file converter in a run: each opens with the line
    [Trying librosa for ...]. *)
Definition converter_calls (t : list event) : nat :=
  count_lines "Trying librosa for " t.

(** The distinct paths a run wrote. *)
Definition distinct_outputs (t : list event) : gset string :=
  list_to_set (written_paths t).

(** Some backend converts the file at [input_path] as the file system [fs]
    holds it. *)
Definition convertible (w : World) (sample_rate : Z) (fs : gmap string bytes)
    (input_path output_path : string) : bool :=
  match result_of (convert_any_audio_to_wav w input_path (Some output_path)
                     sample_rate fs) with
  | Return (Some _) => true
  | _ => false
  end.

(** The files the driver converts, in its order: for each pattern in turn,
    the matching entries of the folder. *)
Definition matched_files (w : World) (dir : pathlib.Path) : list pathlib.Path :=
  concat
    ((fun pattern =>
        (fun name => pathlib.mk_path (pathlib.root dir) (pathlib.parts dir ++ [name]))
          <$> List.filter (fun name => fnmatch name pattern)
                          (scandir w (pathlib.to_str dir)))
       <$> supported_formats).

(** [str(output_path / f"{audio_file.stem}.wav")]. *)
Definition wav_file_for (output_path audio_file : pathlib.Path) : string :=
  pathlib.to_str (pathlib.truediv output_path (pathlib.stem audio_file +:+ ".wav")).

(** No conversion writes over a file that is still to be converted. *)
Fixpoint no_clobber (output_path : pathlib.Path) (audio_files : list pathlib.Path) : Prop :=
  match audio_files with
  | [] => True
  | f :: rest =>
      Forall (fun g => wav_file_for output_path f <> pathlib.to_str g) rest /\
      no_clobber output_path rest
  end.

(** The matched files that some backend converts, as [fs] holds them. *)
Definition convertible_files (w : World) (sample_rate : Z) (fs : gmap string bytes)
    (output_path : pathlib.Path) (audio_files : list pathlib.Path) : list pathlib.Path :=
  List.filter
    (fun f => convertible w sample_rate fs (pathlib.to_str f) (wav_file_for output_path f))
    audio_files.

Definition unconvertible_files (w : World) (sample_rate : Z) (fs : gmap string bytes)
    (output_path : pathlib.Path) (audio_files : list pathlib.Path) : list pathlib.Path :=
  List.filter
    (fun f => negb (convertible w sample_rate fs (pathlib.to_str f)
                      (wav_file_for output_path f)))
    audio_files.

(** ** Predicates of the further properties *)

(** A sample in the range of a float WAV sample. *)
Definition in_unit_range (q : Q) : Prop := (-1 <= q)%Q /\ (q < 1)%Q.

(** A program that never raises. *)
Definition never_raises {A} (c : M A) : Prop :=
  forall fs, exists a, result_of (c fs) = Return a.

(** What making the output folder of the batch driver answers: nothing is
    made when no folder is given. *)
Definition made_dir (w : World) (output_dir : option string) : option exn :=
  match output_dir with
  | Some d => mkdir w (pathlib.to_str (pathlib.of_str d))
  | None => None
  end.

(** The folder the batch driver writes to. *)
Definition output_folder (input_dir : string) (output_dir : option string) : pathlib.Path :=
  match output_dir with
  | Some d => pathlib.of_str d
  | None => pathlib.of_str input_dir
  end.

(** [c in s] for a one-character [c]. *)
Fixpoint str_contains (c : ascii) (s : string) : bool :=
  match s with
  | EmptyString => false
  | String a s' => Ascii.eqb a c || str_contains c s'
  end.

(** A name as a directory listing holds it: not empty, no separator in it
    (the entries [.] and [..] are never listed). *)
Definition entry_name (name : string) : Prop :=
  name <> "" /\ name <> "." /\ str_contains pathlib.sep name = false.

(** The entry [name] of the folder [dir], as [glob] yields it. *)
Definition child (dir : pathlib.Path) (name : string) : pathlib.Path :=
  pathlib.mk_path (pathlib.root dir) (pathlib.parts dir ++ [name]).

(** ** A small concrete world

    Toy file formats, enough to run the scripts on concrete inputs.  The
    first byte of a file tells its format: [0x52] a PCM WAV file, [0x49] an
    MP3 file, [0x00] an M4A file whose next two bytes give the channel count
    and the rate (0 for 16000 Hz, otherwise 44100 Hz); the rest is the
    payload.  librosa reads WAV and MP3 only; pydub, audioread and ffmpeg
    also read M4A. *)

Module demo.

Definition wav_tag : Byte.byte := Byte.x52.
Definition mp3_tag : Byte.byte := Byte.x49.
Definition m4a_tag : Byte.byte := Byte.x00.

Definition sample_of_byte (b : Byte.byte) : Q :=
  numpy.to_float (Z.of_N (Byte.to_N b) - 128).

Definition byte_of_sample (q : Q) : Byte.byte :=
  default Byte.x00 (Byte.of_N (Z.to_N ((Qnum q + 128) mod 256))).

Definition no_backend : exn := mk_exn RuntimeError "NoBackendError".
Definition no_pydub : exn := mk_exn ImportError "No module named 'pydub'".
Definition no_audioread : exn := mk_exn ImportError "No module named 'audioread'".
Definition no_ffmpeg : exn :=
  mk_exn FileNotFoundError "[Errno 2] No such file or directory: 'ffmpeg'".
Definition not_m4a : exn := mk_exn RuntimeError "Decoding failed".
Definition invalid_data : string := "Invalid data found when processing input".

Definition load (data : option bytes) : exn + samples :=
  match data with
  | Some (tag :: payload) =>
      if Byte.eqb tag wav_tag || Byte.eqb tag mp3_tag
      then inr (sample_of_byte <$> payload) else inl no_backend
  | _ => inl no_backend
  end.

Definition encode (audio : samples) : bytes := wav_tag :: (byte_of_sample <$> audio).

(** Every second sample: the toy resampler. *)
Fixpoint halve (audio : samples) : samples :=
  match audio with
  | x :: _ :: rest => x :: halve rest
  | l => l
  end.

Definition rate_of (code : Byte.byte) : Z :=
  if Byte.eqb code Byte.x00 then 16000 else 44100.

Definition segment (data : option bytes) : exn + AudioSegment :=
  match data with
  | Some (tag :: ch :: code :: payload) =>
      if Byte.eqb tag m4a_tag
      then inr (mk_segment (rate_of code) (Z.of_N (Byte.to_N ch)) payload)
      else inl not_m4a
  | _ => inl not_m4a
  end.

Definition audio_file (data : option bytes) : exn + AudioFile :=
  match data with
  | Some (tag :: ch :: code :: payload) =>
      if Byte.eqb tag m4a_tag
      then inr (mk_audio_file (rate_of code) 1 (Z.of_N (Byte.to_N ch)) (inr [payload]))
      else inl not_m4a
  | _ => inl not_m4a
  end.

Definition ffmpeg (argv : list string) (data : option bytes) : CompletedProcess :=
  match argv with
  | ["ffmpeg"; "-version"] => mk_completed 0 "" None
  | _ =>
      match data with
      | Some (tag :: payload) =>
          if Byte.eqb tag wav_tag || Byte.eqb tag mp3_tag || Byte.eqb tag m4a_tag
          then mk_completed 0 "" (Some (wav_tag :: payload))
          else mk_completed 1 invalid_data None
      | _ => mk_completed 1 invalid_data None
      end
  end.

(** The world with or without pydub, audioread and ffmpeg installed, and
    with the given directory listing. *)
Definition world (have_pydub have_audioread have_ffmpeg : bool)
    (listing : string -> list string) : World :=
  {| librosa_load := fun _ data _ => load data;
     librosa_resample := fun audio _ _ => inr (halve audio);
     sf_write := fun _ audio _ => Written (encode audio);
     pydub_import := if have_pydub then None else Some no_pydub;
     pydub_from_file := fun _ data => segment data;
     pydub_set_channels := fun a n =>
       inr (mk_segment (seg_frame_rate a) n (seg_data a));
     pydub_set_frame_rate := fun a sr =>
       inr (mk_segment sr (seg_channels a) (seg_data a));
     pydub_export := fun _ a => Written (wav_tag :: seg_data a);
     audioread_import := if have_audioread then None else Some no_audioread;
     audioread_open := fun _ data => audio_file data;
     subprocess_run := fun argv data =>
       if have_ffmpeg then inr (ffmpeg argv data) else inl no_ffmpeg;
     scandir := listing;
     mkdir := fun _ => None |}.

Definition studio : World := world true true true (fun _ => []).

(** Only librosa and soundfile are installed. *)
Definition bare : World := world false false false (fun _ => []).

(** A WAV file, three M4A files (stereo at 44100 Hz, mono at 16000 Hz, and
    two frames of three channels at 16000 Hz) and a file that is no audio. *)
Definition disk : gmap string bytes :=
  {[ "talk.wav" := [wav_tag; Byte.x80; Byte.x90; Byte.xa0; Byte.x70];
     "voice.m4a" := [m4a_tag; Byte.x02; Byte.x01;
                     Byte.x00; Byte.x01; Byte.x00; Byte.x03;
                     Byte.xfe; Byte.xff; Byte.x00; Byte.x00];
     "memo.m4a" := [m4a_tag; Byte.x01; Byte.x00;
                    Byte.x00; Byte.x40; Byte.x00; Byte.xc0];
     "surround.m4a" := [m4a_tag; Byte.x03; Byte.x00;
                        Byte.x00; Byte.x30; Byte.x00; Byte.x60; Byte.x00; Byte.x00;
                        Byte.x00; Byte.x00; Byte.x00; Byte.xd0; Byte.x00; Byte.x30];
     "notes.mp3" := [Byte.x2d; Byte.x2d] ]}.

(** A folder with a good MP3 file and a damaged WAV file of the same stem,
    next to a picture. *)
Definition folder (dir : string) : list string :=
  if String.eqb dir "in" then ["song.wav"; "song.mp3"; "cover.jpg"] else [].

Definition folder_disk : gmap string bytes :=
  {[ "in/song.mp3" := [mp3_tag; Byte.x80; Byte.x90; Byte.xa0];
     "in/song.wav" := [Byte.x2d; Byte.x2d];
     "in/cover.jpg" := [Byte.xff; Byte.xd8] ]}.

(** A folder with a good MP3 file and a good M4A file of the same stem. *)
Definition album (dir : string) : list string :=
  if String.eqb dir "in" then ["take.m4a"; "take.mp3"] else [].

Definition album_disk : gmap string bytes :=
  {[ "in/take.mp3" := [mp3_tag; Byte.x80; Byte.x90];
     "in/take.m4a" := [m4a_tag; Byte.x01; Byte.x00; Byte.x00; Byte.x40] ]}.

End demo.

(** * Properties *)

(** ** The monad *)

Lemma bind_ret_l {A B} (a : A) (k : A -> M B) fs : (ret a ≫= k) fs = k a fs.
Proof.
  unfold mbind, M_bind, bind, ret. destruct (k a fs) as [[r fs2] t2]. reflexivity.
Qed.

Lemma or_next_none {A} (c : M (option A)) fs : or_next (ret None) c fs = c fs.
Proof. unfold or_next. apply bind_ret_l. Qed.

Ltac unfold_monad :=
  unfold or_next, try_except_cls, try_except, default_output, lift_sum, import, print,
    load, write, resample, from_file, set_channels, set_frame_rate, export,
    audio_open, run, read_file, extern, extern_write,
    mbind, M_bind, bind, ret, raise, mret, M_ret in *.

(** Case analysis on what the world answers to the next external call. *)
Ltac oracle :=
  match goal with
  | |- context [librosa_load ?w ?p ?d ?r] =>
      is_var w; destruct (librosa_load w p d r) as [?e|?a] eqn:?
  | |- context [sf_write ?w ?p ?a ?r] =>
      is_var w; destruct (sf_write w p a r) as [?d|?e [?d|]] eqn:?
  | |- context [pydub_import ?w] =>
      is_var w; destruct (pydub_import w) as [?e|] eqn:?
  | |- context [pydub_from_file ?w ?p ?d] =>
      is_var w; destruct (pydub_from_file w p d) as [?e|?a] eqn:?
  | |- context [pydub_set_channels ?w ?a ?n] =>
      is_var w; destruct (pydub_set_channels w a n) as [?e|?a] eqn:?
  | |- context [pydub_set_frame_rate ?w ?a ?n] =>
      is_var w; destruct (pydub_set_frame_rate w a n) as [?e|?a] eqn:?
  | |- context [pydub_export ?w ?p ?a] =>
      is_var w; destruct (pydub_export w p a) as [?d|?e [?d|]] eqn:?
  | |- context [subprocess_run ?w ?a ?d] =>
      is_var w; destruct (subprocess_run w a d) as [?e|?p] eqn:?
  | |- context [Z.eqb (returncode ?p) 0] =>
      is_var p; destruct (Z.eqb (returncode p) 0) eqn:?
  | |- context [audioread_import ?w] =>
      is_var w; destruct (audioread_import w) as [?e|] eqn:?
  | |- context [audioread_open ?w ?p ?d] =>
      is_var w; destruct (audioread_open w p d) as [?e|?f] eqn:?
  | |- context [read_frames ?f] =>
      is_var f; destruct (read_frames f) as [?e|?frames] eqn:?
  | |- context [bytes_to_audio ?n ?b] =>
      destruct (bytes_to_audio n b) as [?e|?a] eqn:?
  | |- context [librosa_resample ?w ?a ?r1 ?r2] =>
      is_var w; destruct (librosa_resample w a r1 r2) as [?e|?a] eqn:?
  | |- context [output_or_default ?i ?o] =>
      destruct (output_or_default i o) as [?e|?out] eqn:?
  | |- context [Z.eqb (samplerate ?f) ?sr] =>
      is_var f; destruct (Z.eqb (samplerate f) sr) eqn:?
  | |- context [decide (exn_cls ?e = ?c)] =>
      is_var e; destruct (decide (exn_cls e = c))
  | |- context [pystr.truthy ?o] =>
      is_var o; destruct (pystr.truthy o) eqn:?
  end; simpl; try congruence.

Section attempts.

Variable w : World.
Variables (i o : string) (sr : Z).

Lemma method_librosa_run fs :
  let x := method_librosa w i o sr fs in
  (result_of x = Return (Some o) /\ attempt_succeeded Librosa o (events_of x)) \/
  (result_of x = Return None /\ attempt_failed Librosa o (events_of x)).
Proof.
  unfold method_librosa, attempt_succeeded, attempt_failed. unfold_monad.
  repeat oracle; eauto 12.
Qed.

Lemma method_pydub_run fs :
  let x := method_pydub w i o sr fs in
  (result_of x = Return (Some o) /\ attempt_succeeded Pydub o (events_of x)) \/
  (result_of x = Return None /\ attempt_failed Pydub o (events_of x)).
Proof.
  unfold method_pydub, attempt_succeeded, attempt_failed. unfold_monad.
  repeat oracle; eauto 12.
Qed.

Lemma method_ffmpeg_run fs :
  let x := method_ffmpeg w i o sr fs in
  (result_of x = Return (Some o) /\ attempt_succeeded Ffmpeg o (events_of x)) \/
  (result_of x = Return None /\ attempt_failed Ffmpeg o (events_of x)).
Proof.
  unfold method_ffmpeg, attempt_succeeded, attempt_failed. unfold_monad.
  repeat oracle; eauto 12.
Qed.

Lemma attempt_run s fs :
  let x := attempt w s i o sr fs in
  (result_of x = Return (Some o) /\ attempt_succeeded s o (events_of x)) \/
  (result_of x = Return None /\ attempt_failed s o (events_of x)).
Proof.
  destruct s; [apply method_librosa_run | apply method_pydub_run | apply method_ffmpeg_run].
Qed.

(** The iterator of the specification runs in order. *)
Lemma first_success_in_order line l :
  forall fs,
    let x := first_success ((fun s => attempt w s i o sr) <$> l)
                           (print line;; ret None) fs in
    in_order o l (result_of x) (events_of x).
Proof.
  induction l as [|s l IH]; intros fs; simpl.
  - apply in_order_exhausted.
  - unfold mbind, M_bind, bind.
    pose proof (attempt_run s fs) as Hs. simpl in Hs.
    destruct (attempt w s i o sr fs) as [[r fs1] t1].
    unfold result_of, events_of in Hs. simpl in Hs.
    destruct Hs as [[-> Hok] | [-> Hfail]].
    + simpl. rewrite app_nil_r. by apply in_order_success.
    + specialize (IH fs1). simpl in IH.
      destruct (first_success _ _ fs1) as [[r2 fs2] t2].
      by apply in_order_failure.
Qed.

End attempts.

(** ** The fallback chain of [convert_any_audio_to_wav] *)

Lemma convert_refines_iterator w input output sr fs :
  convert_any_audio_to_wav w input output sr fs = convert_in_order w input output sr fs.
Proof.
  unfold convert_any_audio_to_wav, convert_in_order, strategies.
  fold (is_m4a input).
  unfold default_output, lift_sum.
  destruct (output_or_default input output) as [e|out]; [reflexivity|].
  rewrite !bind_ret_l.
  destruct (is_m4a input); simpl; [reflexivity|].
  unfold or_next at 1. unfold mbind at 1 3, M_bind, bind.
  destruct (method_librosa w input out sr fs) as [[[[p|]|e] fs1] t1]; try reflexivity.
  rewrite (or_next_none _ fs1). reflexivity.
Qed.

(** C1. [convert_any_audio_to_wav] attempts librosa, then pydub for an input
    whose extension is [.m4a], then ffmpeg: its run is a sequence of failed
    attempts in that order (each with one call that raised or exited with a
    non-zero code), closed by the first successful attempt, whose output
    path it returns without attempting anything further, or by the attempt
    list being exhausted.  It is the ordered-strategy iterator of the
    specification. *)
Theorem convert_tries_strategies_in_order w input output sr fs out :
  output_or_default input output = inr out ->
  let x := convert_any_audio_to_wav w input output sr fs in
  x = convert_in_order w input output sr fs /\
  in_order out (strategies input) (result_of x) (events_of x).
Proof.
  intros Hout x. subst x. split; [apply convert_refines_iterator|].
  rewrite convert_refines_iterator.
  unfold convert_in_order, default_output, lift_sum. rewrite Hout, bind_ret_l.
  apply first_success_in_order.
Qed.

Lemma convert_tries_strategies_in_order_witness :
  let x := convert_any_audio_to_wav demo.studio "voice.m4a" None 16000 demo.disk in
  x = convert_in_order demo.studio "voice.m4a" None 16000 demo.disk /\
  in_order "voice.wav" [Librosa; Pydub; Ffmpeg] (result_of x) (events_of x).
Proof.
  apply (convert_tries_strategies_in_order demo.studio "voice.m4a" None 16000 demo.disk).
  reflexivity.
Defined.

(** ** The ffmpeg script *)

Lemma check_ffmpeg_run w fs :
  check_ffmpeg w fs =
  match subprocess_run w ["ffmpeg"; "-version"] None with
  | inr p =>
      (Return (returncode p =? 0), fs,
       [Call (SubprocessRun ["ffmpeg"; "-version"]) (Exit (returncode p) (stderr p))])
  | inl e =>
      (if decide (exn_cls e = FileNotFoundError) then Return false else Raise e, fs,
       [Call (SubprocessRun ["ffmpeg"; "-version"]) (Err e)])
  end.
Proof.
  unfold check_ffmpeg. unfold_monad. simpl.
  destruct (subprocess_run w _ None) as [e|p]; simpl; [|reflexivity].
  destruct (decide (exn_cls e = FileNotFoundError)); reflexivity.
Qed.

(** C8. [check_ffmpeg] runs [ffmpeg -version] once; it returns [True] exactly
    when that process exits with return code 0, and it returns [False],
    without raising, when the executable is not found. *)
Theorem check_ffmpeg_true_iff_clean_exit w fs :
  let x := check_ffmpeg w fs in
  (result_of x = Return true <->
   exists p, subprocess_run w ["ffmpeg"; "-version"] None = inr p /\ returncode p = 0) /\
  (forall e, subprocess_run w ["ffmpeg"; "-version"] None = inl e ->
             exn_cls e = FileNotFoundError -> result_of x = Return false) /\
  (exists s, events_of x = [Call (SubprocessRun ["ffmpeg"; "-version"]) s]) /\
  files_of x = fs.
Proof.
  intros x. subst x. rewrite check_ffmpeg_run.
  destruct (subprocess_run w _ None) as [e|p]; simpl.
  - unfold result_of, events_of, files_of. simpl.
    split; [split|split; [|split; [eexists|]; reflexivity]].
    + destruct (decide _); discriminate.
    + intros (p & Hp & _). discriminate.
    + intros e' [= <-] He. destruct (decide _); [reflexivity | contradiction].
  - unfold result_of, events_of, files_of. simpl.
    split; [split|split; [|split; [eexists|]; reflexivity]].
    + intros [= H]. exists p. split; [reflexivity | by apply Z.eqb_eq].
    + intros (p' & [= <-] & ->). reflexivity.
    + discriminate.
Qed.

(** C10. When [check_ffmpeg] returns [False], [convert_m4a_to_wav] prints the
    installation instructions and returns [False]: it does nothing else.  No
    default output path is computed (the result is the same whatever the
    input path and the output argument are, also where [with_suffix] would
    raise), the only process launched is the version check, nothing is
    written and the file system is unchanged. *)
Theorem convert_m4a_to_wav_without_ffmpeg w input output sr fs :
  result_of (check_ffmpeg w fs) = Return false ->
  let x := convert_m4a_to_wav w input output sr fs in
  x = (Return false, fs,
       events_of (check_ffmpeg w fs) ++ events_of (install_ffmpeg_instructions fs)) /\
  (exists s, calls is_subprocess (events_of x)
             = [Call (SubprocessRun ["ffmpeg"; "-version"]) s]) /\
  written_paths (events_of x) = [].
Proof.
  intros Hcheck x.
  assert (x = (Return false, fs,
               events_of (check_ffmpeg w fs)
                 ++ events_of (install_ffmpeg_instructions fs))) as ->.
  { subst x. unfold convert_m4a_to_wav. unfold mbind at 1, M_bind, bind.
    rewrite check_ffmpeg_run in *.
    destruct (subprocess_run w _ None) as [e|p]; unfold result_of in Hcheck;
      simpl in Hcheck.
    - destruct (decide _); [reflexivity | discriminate].
    - injection Hcheck as ->. reflexivity. }
  split; [reflexivity|].
  rewrite check_ffmpeg_run.
  destruct (subprocess_run w _ None) as [e|p];
    (split; [eexists|]; reflexivity).
Qed.

Lemma convert_m4a_to_wav_without_ffmpeg_witness :
  let x := convert_m4a_to_wav demo.bare "" None 16000 demo.disk in
  x = (Return false, demo.disk,
       events_of (check_ffmpeg demo.bare demo.disk)
         ++ events_of (install_ffmpeg_instructions demo.disk)) /\
  (exists s, calls is_subprocess (events_of x)
             = [Call (SubprocessRun ["ffmpeg"; "-version"]) s]) /\
  written_paths (events_of x) = [].
Proof.
  apply (convert_m4a_to_wav_without_ffmpeg demo.bare "" None 16000 demo.disk).
  reflexivity.
Defined.

(** ** The audioread conversion *)

(** C4. In [convert_m4a_with_audioread] the resampler is called only when the
    native rate of the opened file differs from the requested rate; when the
    two are equal and the file decodes, the decoded (and, for two channels,
    down-mixed) samples are what [soundfile.write] receives. *)
Theorem audioread_resamples_only_on_rate_mismatch w input output sr fs f :
  audioread_open w input (fs !! input) = inr f ->
  let x := convert_m4a_with_audioread w input output sr fs in
  (calls is_resample (events_of x) <> [] -> samplerate f <> sr) /\
  (samplerate f = sr ->
   forall out frames audio,
     audioread_import w = None ->
     output_or_default input output = inr out ->
     read_frames f = inr frames ->
     bytes_to_audio (channels f) (concat frames) = inr audio ->
     calls is_resample (events_of x) = [] /\
     exists s, calls is_sf_write (events_of x) = [Call (SfWrite out audio sr) s]).
Proof.
  intros Hopen x. subst x. split.
  - intros Hcalls Hrate. apply Hcalls. clear Hcalls.
    unfold convert_m4a_with_audioread. unfold_monad.
    destruct (audioread_import w); simpl; [reflexivity|].
    destruct (output_or_default input output); simpl; [reflexivity|].
    rewrite Hopen, Hrate, Z.eqb_refl. simpl.
    repeat oracle; reflexivity.
  - intros Hrate out frames audio Himp Hout Hframes Haudio.
    unfold convert_m4a_with_audioread. unfold_monad.
    rewrite Himp, Hout. simpl. rewrite Hopen. simpl. rewrite Hframes. simpl.
    rewrite Haudio. simpl. rewrite Hrate, Z.eqb_refl. simpl.
    repeat oracle; eauto.
Qed.

Lemma audioread_resamples_only_on_rate_mismatch_witness :
  let x := convert_m4a_with_audioread demo.studio "memo.m4a" None 16000 demo.disk in
  calls is_resample (events_of x) = [] /\
  exists s, calls is_sf_write (events_of x)
            = [Call (SfWrite "memo.wav" [1 # 2; -1 # 2]%Q 16000) s].
Proof.
  refine (proj2 (audioread_resamples_only_on_rate_mismatch demo.studio "memo.m4a" None
                   16000 demo.disk
                   (mk_audio_file 16000 1 1
                      (inr [[Byte.x00; Byte.x40; Byte.x00; Byte.xc0]])) _)
                _ "memo.wav" [[Byte.x00; Byte.x40; Byte.x00; Byte.xc0]] _ _ _ _ _);
    reflexivity.
Defined.

(** For two channels the code computes the mean of each frame. *)
Lemma frames_of_fuel n (a : samples) :
  forall fuel, (length a <= fuel)%nat ->
    frames_of fuel (S n) a = frames_of (length a) (S n) a.
Proof.
  remember (length a) as k eqn:Hk. revert a Hk.
  induction k as [k IH] using lt_wf_ind. intros a Hk fuel Hfuel.
  destruct a as [|x a]; simpl in Hk; subst k.
  - destruct fuel; reflexivity.
  - destruct fuel as [|fuel]; [lia|]. simpl. f_equal.
    assert (length (drop n a) <= length a)%nat as Hdrop by (rewrite length_drop; lia).
    rewrite (IH (length (drop n a))) with (fuel := fuel) by (simpl; lia || reflexivity).
    rewrite (IH (length (drop n a))) with (fuel := length a) by (simpl; lia || reflexivity).
    reflexivity.
Qed.

Lemma reshape2_mean_downmix (a mono : samples) :
  numpy.reshape2_mean a = Some mono -> mono = downmix 2 a.
Proof.
  remember (length a) as k eqn:Hk. revert a mono Hk.
  induction k as [k IH] using lt_wf_ind. intros a mono Hk H.
  destruct a as [|x [|y a]]; simpl in H.
  - injection H as <-. reflexivity.
  - discriminate.
  - destruct (numpy.reshape2_mean a) as [m|] eqn:Hm; [|discriminate].
    injection H as <-. unfold downmix.
    change (frames_of (length (x :: y :: a)) 2 (x :: y :: a))
      with ([x; y] :: frames_of (S (length a)) 2 a).
    rewrite (frames_of_fuel 1 a (S (length a))) by lia.
    rewrite fmap_cons. f_equal.
    + unfold mean. apply Qred_complete.
      change (fold_right Qplus 0%Q [x; y]) with (x + (y + 0))%Q.
      change (inject_Z (Z.of_nat (length [x; y]))) with 2%Q.
      unfold Qdiv. ring.
    + apply (IH (length a)); [subst k; simpl; lia | reflexivity | exact Hm].
Qed.

Lemma bytes_to_audio_stereo b audio :
  bytes_to_audio 2 b = inr audio ->
  exists raw, decode_int16 b = inr raw /\ audio = downmix 2 raw.
Proof.
  unfold bytes_to_audio. simpl.
  destruct (decode_int16 b) as [e|raw]; [discriminate|].
  destruct (numpy.reshape2_mean raw) as [m|] eqn:Hm; [|discriminate].
  intros [= <-]. exists raw. split; [reflexivity | by apply reshape2_mean_downmix].
Qed.

(** For every other channel count the interleaved samples are kept as they are. *)
Lemma bytes_to_audio_not_stereo n b :
  n <> 2 -> bytes_to_audio n b = decode_int16 b.
Proof.
  intros Hn. unfold bytes_to_audio.
  destruct (n =? 2) eqn:E; [apply Z.eqb_eq in E; contradiction | reflexivity].
Qed.

(** C5 (the code departs from it).  A file with two frames of three channels
    is decoded by the audioread path into six samples, and these six
    interleaved samples are written as the mono signal; the mean across the
    three channels would give two samples. *)
Theorem audioread_three_channels_not_downmixed :
  let x := convert_m4a_with_audioread demo.studio "surround.m4a" None 16000 demo.disk in
  let raw := [3 # 8; 3 # 4; 0; 0; -3 # 8; 3 # 8]%Q in
  result_of x = Return (Some "surround.wav") /\
  calls is_sf_write (events_of x) = [Call (SfWrite "surround.wav" raw 16000) Ok] /\
  downmix 3 raw = [3 # 8; 0]%Q /\
  raw <> downmix 3 raw.
Proof.
  repeat split; try reflexivity. discriminate.
Qed.

(** ** The fallback script *)

Lemma audioread_no_librosa_load w i o sr fs :
  calls is_librosa_load (events_of (convert_m4a_with_audioread w i o sr fs)) = [].
Proof.
  unfold convert_m4a_with_audioread. unfold_monad.
  repeat oracle; reflexivity.
Qed.

(** C2 (the code departs from it).  When [librosa.load] raises on the input,
    one call of [convert_with_simple_fallback] invokes it a second time with
    the same arguments: the loop over the two backend names never passes the
    name to the loader, so the second iteration retries the first. *)
Theorem simple_fallback_repeats_librosa_load w input output sr fs out e :
  output_or_default input output = inr out ->
  librosa_load w input (fs !! input) sr = inl e ->
  calls is_librosa_load
        (events_of (convert_with_simple_fallback w input output sr fs))
  = [Call (LibrosaLoad input sr) (Err e); Call (LibrosaLoad input sr) (Err e)].
Proof.
  intros Hout Hload.
  pose proof (audioread_no_librosa_load w input (Some out) sr fs) as Hno.
  unfold convert_with_simple_fallback, try_backends. unfold_monad.
  rewrite Hout. simpl. repeat (rewrite Hload; simpl).
  destruct (convert_m4a_with_audioread w input (Some out) sr fs) as [[r fs'] t].
  unfold events_of in Hno. simpl in Hno.
  destruct r as [[p|]|e']; simpl; try destruct (pystr.truthy p); simpl;
    unfold calls in *; rewrite ?List.filter_app, ?Hno; reflexivity.
Qed.

Lemma simple_fallback_repeats_librosa_load_witness :
  calls is_librosa_load
        (events_of (convert_with_simple_fallback demo.studio "voice.m4a" None 16000
                      demo.disk))
  = [Call (LibrosaLoad "voice.m4a" 16000) (Err demo.no_backend);
     Call (LibrosaLoad "voice.m4a" 16000) (Err demo.no_backend)].
Proof.
  apply (simple_fallback_repeats_librosa_load demo.studio "voice.m4a" None 16000
           demo.disk "voice.wav" demo.no_backend); reflexivity.
Defined.

(** ** Exhausting the strategies *)

Ltac printed_errors :=
  repeat (apply List.Forall_cons;
          [eexists; apply list_elem_of_In; simpl; eauto 15|]);
  apply List.Forall_nil.

(** C6 as stated fails: for an MP3 file that nothing decodes, pydub is never
    attempted, and the value returned is [None], which enumerates neither of
    the two error messages of the run. *)
Lemma convert_failure_value_counterexample :
  let x := convert_any_audio_to_wav demo.bare "notes.mp3" None 16000 demo.disk in
  undecodable demo.bare "notes.mp3" (demo.disk !! "notes.mp3") /\
  attempts (events_of x) <> [Librosa; Pydub; Ffmpeg] /\
  errors (events_of x)
    = ["NoBackendError"; "[Errno 2] No such file or directory: 'ffmpeg'"] /\
  ~ (exists v, result_of x = Return v /\ Forall (enumerates v) (errors (events_of x))).
Proof.
  split; [|split; [|split]].
  - repeat split; simpl; auto.
  - vm_compute. discriminate.
  - reflexivity.
  - intros (v & Hv & Hall). vm_compute in Hv. injection Hv as <-.
    apply Forall_inv in Hall. exact Hall.
Qed.

(** C6, amended.  For an input whose content no backend can decode,
    [convert_any_audio_to_wav] attempts librosa, then pydub when the
    extension is [.m4a], then ffmpeg; each attempt fails with one error,
    whose text it prints; it then prints the final line and returns [None]. *)
Theorem convert_failure_prints_errors w input output sr fs out :
  output_or_default input output = inr out ->
  undecodable w input (fs !! input) ->
  let x := convert_any_audio_to_wav w input output sr fs in
  result_of x = Return None /\
  attempts (events_of x) = strategies input /\
  length (errors (events_of x)) = length (strategies input) /\
  Forall (fun m => exists pre, Print (pre +:+ m) ∈ events_of x) (errors (events_of x)) /\
  last (events_of x) = Some (Print ("All conversion methods failed for " +:+ input)).
Proof.
  intros Hout (Hl & Hp & Hf) x. subst x.
  specialize (Hl sr). specialize (Hf out sr).
  unfold convert_any_audio_to_wav, strategies. fold (is_m4a input).
  unfold method_librosa, method_pydub, method_ffmpeg. unfold_monad.
  rewrite Hout. simpl.
  destruct (librosa_load w input (fs !! input) sr) as [e1|?]; [|contradiction].
  simpl.
  destruct (is_m4a input); simpl.
  - destruct (pydub_import w) as [e2|] eqn:Himp; simpl.
    + destruct (subprocess_run w _ (fs !! input)) as [e3|p]; simpl.
      * repeat split; try reflexivity.
        printed_errors.
      * destruct (returncode p =? 0) eqn:Hrc; [apply Z.eqb_eq in Hrc; contradiction|].
        unfold errors. simpl. rewrite Hrc. repeat split; try reflexivity.
        printed_errors.
    + destruct Hp as [[? [=]]|Hp].
      destruct (pydub_from_file w input (fs !! input)) as [e2|?]; [|contradiction].
      simpl.
      destruct (subprocess_run w _ (fs !! input)) as [e3|p]; simpl.
      * repeat split; try reflexivity.
        printed_errors.
      * destruct (returncode p =? 0) eqn:Hrc; [apply Z.eqb_eq in Hrc; contradiction|].
        unfold errors. simpl. rewrite Hrc. repeat split; try reflexivity.
        printed_errors.
  - destruct (subprocess_run w _ (fs !! input)) as [e3|p]; simpl.
    + repeat split; try reflexivity.
      printed_errors.
    + destruct (returncode p =? 0) eqn:Hrc; [apply Z.eqb_eq in Hrc; contradiction|].
      unfold errors. simpl. rewrite Hrc. repeat split; try reflexivity.
      printed_errors.
Qed.

Lemma convert_failure_prints_errors_witness :
  let x := convert_any_audio_to_wav demo.studio "notes.mp3" None 16000 demo.disk in
  let fs : gmap string bytes := {[ "bad.m4a" := [Byte.x2d; Byte.x2d] ]} in
  let y := convert_any_audio_to_wav demo.studio "bad.m4a" None 16000 fs in
  (result_of x = Return None /\
   attempts (events_of x) = [Librosa; Ffmpeg] /\
   length (errors (events_of x)) = 2%nat /\
   Forall (fun m => exists pre, Print (pre +:+ m) ∈ events_of x) (errors (events_of x)) /\
   last (events_of x) = Some (Print "All conversion methods failed for notes.mp3")) /\
  (result_of y = Return None /\
   attempts (events_of y) = [Librosa; Pydub; Ffmpeg] /\
   length (errors (events_of y)) = 3%nat /\
   Forall (fun m => exists pre, Print (pre +:+ m) ∈ events_of y) (errors (events_of y)) /\
   last (events_of y) = Some (Print "All conversion methods failed for bad.m4a")).
Proof.
  split.
  - apply (convert_failure_prints_errors demo.studio "notes.mp3" None 16000 demo.disk
             "notes.wav"); [reflexivity|].
    split; [|split].
    + intros sr. vm_compute. exact I.
    + right. vm_compute. exact I.
    + intros o sr. vm_compute. discriminate.
  - apply (convert_failure_prints_errors demo.studio "bad.m4a" None 16000
             {[ "bad.m4a" := [Byte.x2d; Byte.x2d] ]} "bad.wav"); [reflexivity|].
    split; [|split].
    + intros sr. vm_compute. exact I.
    + right. vm_compute. exact I.
    + intros o sr. vm_compute. discriminate.
Defined.

(** ** The default output path *)

Lemma string_app_length (a b : string) :
  String.length (a +:+ b) = (String.length a + String.length b)%nat.
Proof. induction a as [|c a IH]; simpl; [reflexivity | by rewrite IH]. Qed.

Lemma pystr_take_app (a b : string) : pystr.take (String.length a) (a +:+ b) = a.
Proof. induction a as [|c a IH]; simpl; [by destruct b | by rewrite IH]. Qed.

Lemma pystr_drop_app (a b : string) : pystr.drop (String.length a) (a +:+ b) = b.
Proof. induction a as [|c a IH]; simpl; [reflexivity | exact IH]. Qed.

(** [split_ext] cuts where [rfind] points, and the cut starts with the dot. *)
Lemma split_ext_rfind (n : string) :
  forall base ext i last,
    split_ext n = (base, ext) ->
    n = base +:+ ext /\
    pystr.rfind_from "."%char n i last
    = (if pystr.truthy ext then i + pystr.len base else last) /\
    (ext = "" \/ exists e, ext = String "."%char e).
Proof.
  induction n as [|c n IH]; intros base ext i last H; simpl in H.
  - injection H as <- <-. repeat split; auto.
  - destruct (split_ext n) as [base' ext'].
    destruct (IH base' ext' (i + 1) (if Ascii.eqb c "."%char then i else last) eq_refl)
      as (Hn & Hr & Hdot).
    simpl pystr.rfind_from. rewrite Hr.
    destruct (pystr.truthy ext') eqn:Hext.
    + injection H as <- <-. rewrite Hext.
      repeat split; [rewrite Hn; reflexivity | unfold pystr.len; simpl; lia | exact Hdot].
    + destruct ext'; [|discriminate].
      destruct (Ascii.eqb c "."%char) eqn:Hc; injection H as <- <-.
      * apply Ascii.eqb_eq in Hc. subst c.
        repeat split; [unfold pystr.len; simpl; lia | right; eauto].
      * repeat split; [rewrite Hn; reflexivity | auto].
Qed.

(** [p.suffix] is the extension of the name. *)
Lemma suffix_split_ext (p : pathlib.Path) base ext :
  split_ext (pathlib.name p) = (base, ext) ->
  pathlib.suffix p
  = if pystr.truthy base && pystr.truthy ext && negb (String.eqb ext ".")
    then ext else "".
Proof.
  intros Hsplit. unfold pathlib.suffix, pystr.rfind.
  destruct (split_ext_rfind _ _ _ 0 (-1) Hsplit) as (Hcat & -> & Hdot).
  destruct Hdot as [-> | [e ->]]; simpl pystr.truthy.
  - rewrite andb_false_r. reflexivity.
  - destruct base as [|b base]; [reflexivity|]. simpl pystr.truthy.
    rewrite Hcat. unfold pystr.len. rewrite string_app_length.
    replace (0 <? 0 + Z.of_nat (String.length (String b base))) with true
      by (symmetry; apply Z.ltb_lt; simpl; lia).
    replace (Z.to_nat (0 + Z.of_nat (String.length (String b base))))
      with (String.length (String b base)) by lia.
    rewrite pystr_drop_app.
    destruct e as [|d e].
    + replace (_ <? _) with false by (symmetry; apply Z.ltb_ge; simpl; lia).
      reflexivity.
    + replace (_ <? _) with true by (symmetry; apply Z.ltb_lt; simpl; lia).
      reflexivity.
Qed.

(** [with_suffix('.wav')] replaces the extension of the name. *)
Lemma with_suffix_replaces_extension (p : pathlib.Path) :
  pathlib.name p <> "" ->
  pathlib.with_suffix p ".wav"
  = inr (pathlib.mk_path (pathlib.root p)
           (removelast (pathlib.parts p) ++ [replace_extension (pathlib.name p)])).
Proof.
  intros Hname. unfold pathlib.with_suffix, replace_extension.
  destruct (split_ext (pathlib.name p)) as [base ext] eqn:Hsplit.
  rewrite (suffix_split_ext p base ext Hsplit).
  destruct (split_ext_rfind _ _ _ 0 (-1) Hsplit) as (Hcat & _ & _).
  destruct (pathlib.name p) as [|c n] eqn:Hn; [contradiction|]. simpl pystr.truthy.
  simpl negb at 1. cbv iota. do 3 f_equal.
  destruct (pystr.truthy base && pystr.truthy ext && negb (String.eqb ext ".")) eqn:Hc.
  - apply andb_prop in Hc as [Hc _]. apply andb_prop in Hc as [_ ->]. simpl negb.
    cbv iota. rewrite Hcat at 1 2. rewrite string_app_length.
    replace (String.length base + String.length ext - String.length ext)%nat
      with (String.length base) by lia.
    rewrite pystr_take_app. reflexivity.
  - reflexivity.
Qed.

Lemma default_output_is_wav_path input :
  pathlib.name (pathlib.of_str input) <> "" ->
  output_or_default input None = inr (wav_path_for input).
Proof.
  intros Hname. unfold output_or_default, with_suffix_wav, wav_path_for.
  by rewrite with_suffix_replaces_extension.
Qed.

Lemma same_update_lookup o fs g fs' g' (i : string) :
  same_update o fs g fs' g' -> fs !! i = fs' !! i -> g !! i = g' !! i.
Proof.
  intros [[-> ->] | (data & -> & ->)] H; [exact H|].
  rewrite !lookup_insert. by case_decide.
Qed.

Lemma same_update_trans o fs g h fs' g' h' :
  same_update o fs g fs' g' -> same_update o g h g' h' -> same_update o fs h fs' h'.
Proof.
  intros [[-> ->] | (d1 & -> & ->)] [[-> ->] | (d2 & -> & ->)]; unfold same_update.
  - auto.
  - eauto.
  - eauto.
  - right. exists d2. by rewrite !insert_insert_eq.
Qed.

Lemma same_update_frame o fs g fs' g' (p : string) :
  same_update o fs g fs' g' -> p <> o -> g !! p = fs !! p.
Proof.
  intros [[-> _] | (data & -> & _)] Hp; [reflexivity|].
  by rewrite lookup_insert_ne.
Qed.

Lemma written_paths_app t1 t2 :
  written_paths (t1 ++ t2) = written_paths t1 ++ written_paths t2.
Proof. apply omap_app. Qed.

Section confined.

Context {A B : Type} (i o : string).

Lemma confined_bind (c : M A) (k : A -> M B) :
  confined i o c -> (forall a, confined i o (k a)) -> confined i o (c ≫= k).
Proof.
  intros Hc Hk fs fs' Hin. unfold mbind, M_bind, bind.
  destruct (Hc fs fs' Hin) as (Hr & He & Hu & Hw).
  destruct (c fs) as [[r g] t], (c fs') as [[r' g'] t'].
  unfold result_of, events_of, files_of in Hr, He, Hu, Hw. cbn [fst snd] in Hr, He, Hu, Hw.
  subst r' t'. destruct r as [a|e]; [|by repeat split].
  destruct (Hk a g g' (same_update_lookup _ _ _ _ _ _ Hu Hin)) as (Hr & He & Hu' & Hw').
  destruct (k a g) as [[r2 h] t2], (k a g') as [[r2' h'] t2'].
  unfold result_of, events_of, files_of in *. cbn [fst snd] in *. subst.
  repeat split.
  - by eapply same_update_trans.
  - rewrite written_paths_app. by apply Forall_app.
Qed.

Lemma confined_try (c : M A) (h : exn -> M A) :
  confined i o c -> (forall e, confined i o (h e)) -> confined i o (try_except c h).
Proof.
  intros Hc Hh fs fs' Hin. unfold try_except.
  destruct (Hc fs fs' Hin) as (Hr & He & Hu & Hw).
  destruct (c fs) as [[r g] t], (c fs') as [[r' g'] t'].
  unfold result_of, events_of, files_of in Hr, He, Hu, Hw. cbn [fst snd] in Hr, He, Hu, Hw.
  subst r' t'. destruct r as [a|e]; [by repeat split|].
  destruct (Hh e g g' (same_update_lookup _ _ _ _ _ _ Hu Hin)) as (Hr & He & Hu' & Hw').
  destruct (h e g) as [[r2 k] t2], (h e g') as [[r2' k'] t2'].
  unfold result_of, events_of, files_of in *. cbn [fst snd] in *. subst.
  repeat split.
  - by eapply same_update_trans.
  - rewrite written_paths_app. by apply Forall_app.
Qed.

Lemma confined_ret_bind (a : A) (k : A -> M B) :
  confined i o (k a) -> confined i o (ret a ≫= k).
Proof. intros H fs fs' Hin. rewrite !bind_ret_l. by apply H. Qed.

Lemma confined_ret (a : A) : confined i o (ret a).
Proof. intros fs fs' _. repeat split; [by left | constructor]. Qed.

Lemma confined_raise e : confined i o (@raise A e).
Proof. intros fs fs' _. repeat split; [by left | constructor]. Qed.

Lemma confined_print line : confined i o (print line).
Proof. intros fs fs' _. repeat split; [by left | constructor]. Qed.

(** A call that only computes and is no writer. *)
Lemma confined_extern c (r : exn + A) :
  output_of_call c = None -> confined i o (extern c r).
Proof.
  intros Hc fs fs' _. unfold extern.
  destruct r; repeat split; try (by left);
    unfold events_of, written_paths; cbn; rewrite Hc; constructor.
Qed.

Lemma confined_write c r :
  output_of_call c = Some o -> confined i o (extern_write c o r).
Proof.
  intros Hc fs fs' _. unfold extern_write.
  destruct r as [d|e [d|]]; repeat split;
    try (unfold same_update, files_of; cbn; by eauto);
    unfold events_of, written_paths; cbn; rewrite Hc; by repeat constructor.
Qed.

Lemma confined_read (k : option bytes -> M B) :
  (forall data, confined i o (k data)) -> confined i o (read_file i ≫= k).
Proof.
  intros Hk fs fs' Hin. unfold mbind, M_bind, bind, read_file.
  rewrite <- Hin.
  destruct (Hk (fs !! i) fs fs' Hin) as (Hr & He & Hu & Hw).
  destruct (k (fs !! i) fs) as [[r g] t], (k (fs !! i) fs') as [[r' g'] t'].
  unfold result_of, events_of, files_of in *. cbn [fst snd] in *. subst.
  repeat split; assumption.
Qed.

End confined.

Lemma confined_or_next {A} i o (c1 c2 : M (option A)) :
  confined i o c1 -> confined i o c2 -> confined i o (or_next c1 c2).
Proof.
  intros H1 H2. apply confined_bind; [exact H1|].
  intros [v|]; [apply confined_ret | exact H2].
Qed.

Lemma confined_ffmpeg w i o sr :
  confined i o (run w (ffmpeg_argv i o sr) (Some i) (Some o)).
Proof.
  intros fs fs' Hin. unfold run. cbn [mbind option_bind]. rewrite Hin.
  destruct (subprocess_run w _ (fs' !! i)) as [e|p].
  - repeat split; [by left | by repeat constructor].
  - repeat split; [|by repeat constructor]. unfold files_of. cbn.
    destruct (proc_output p); unfold same_update; eauto.
Qed.

Lemma confined_version w i o :
  confined i o (run w ["ffmpeg"; "-version"] None None).
Proof.
  intros fs fs' Hin. unfold run. cbn [mbind option_bind].
  destruct (subprocess_run w _ None) as [e|p];
    (repeat split; [by left | by repeat constructor]).
Qed.

Ltac confined_step :=
  first
    [ apply confined_ret_bind | apply confined_ret | apply confined_raise
    | apply confined_print
    | apply confined_extern; reflexivity | apply confined_write; reflexivity
    | apply confined_ffmpeg | apply confined_version
    | apply confined_read; intros ?
    | apply confined_try; [|intros ?]
    | apply confined_or_next
    | apply confined_bind; [|intros ?]
    | match goal with |- confined _ _ (if ?b then _ else _) => destruct b end
    | match goal with |- confined _ _ (match ?x with _ => _ end) => destruct x end ].

Ltac unfold_calls :=
  unfold default_output, lift_sum, try_except_cls,
    load, write, resample, from_file, set_channels, set_frame_rate, export,
    audio_open, import.

Section returns.

Context {A : Type} (o : string).

Lemma returns_bind (c : M A) (k : A -> M (option string)) :
  (forall a, returns_path o (k a)) -> returns_path o (c ≫= k).
Proof.
  intros Hk fs p. unfold mbind, M_bind, bind.
  destruct (c fs) as [[[a|e] g] t]; [|discriminate].
  specialize (Hk a g p). destruct (k a g) as [[r h] t2]. exact Hk.
Qed.

Lemma returns_ret_bind (a : A) (k : A -> M (option string)) :
  returns_path o (k a) -> returns_path o (ret a ≫= k).
Proof. intros H fs. rewrite bind_ret_l. apply H. Qed.

Lemma returns_try (c : M (option string)) (h : exn -> M (option string)) :
  returns_path o c -> (forall e, returns_path o (h e)) -> returns_path o (try_except c h).
Proof.
  intros Hc Hh fs p. unfold try_except.
  specialize (Hc fs p). destruct (c fs) as [[[a|e] g] t]; [exact Hc|].
  specialize (Hh e g p). destruct (h e g) as [[r k] t2]. exact Hh.
Qed.

Lemma returns_some : returns_path o (ret (Some o)).
Proof. intros fs p [= <-]. reflexivity. Qed.

Lemma returns_none : returns_path o (ret None).
Proof. intros fs p [=]. Qed.

End returns.

Lemma returns_or_next o (c1 c2 : M (option string)) :
  returns_path o c1 -> returns_path o c2 -> returns_path o (or_next c1 c2).
Proof.
  intros H1 H2 fs p. unfold or_next, mbind, M_bind, bind.
  specialize (H1 fs). unfold returns_only, result_of in *.
  destruct (c1 fs) as [[[[v|]|e] g] t]; cbn in *.
  - intros [= <-]. by apply H1.
  - specialize (H2 g p). unfold result_of in H2.
    destruct (c2 g) as [[r h] t2]. exact H2.
  - discriminate.
Qed.

Ltac returns_step :=
  first
    [ apply returns_ret_bind | apply returns_some | apply returns_none
    | apply returns_try; [|intros ?]
    | apply returns_or_next
    | apply returns_bind; intros ?
    | match goal with |- returns_path _ (if ?b then _ else _) => destruct b eqn:? end
    | match goal with |- returns_path _ (match ?x with _ => _ end) => destruct x eqn:? end ].

(** *** The five conversion functions *)

Lemma convert_any_confined w i output sr o :
  output_or_default i output = inr o ->
  confined i o (convert_any_audio_to_wav w i output sr) /\
  returns_path o (convert_any_audio_to_wav w i output sr).
Proof.
  intros Hout.
  unfold convert_any_audio_to_wav, method_librosa, method_pydub, method_ffmpeg.
  unfold_calls. rewrite Hout.
  split; [repeat confined_step | repeat returns_step].
Qed.

Lemma audioread_confined w i output sr o :
  output_or_default i output = inr o ->
  confined i o (convert_m4a_with_audioread w i output sr) /\
  returns_path o (convert_m4a_with_audioread w i output sr).
Proof.
  intros Hout. unfold convert_m4a_with_audioread. unfold_calls. rewrite Hout.
  split; [repeat confined_step | repeat returns_step].
Qed.

Lemma simple_fallback_confined w i output sr o :
  output_or_default i output = inr o ->
  confined i o (convert_with_simple_fallback w i output sr) /\
  returns_path o (convert_with_simple_fallback w i output sr).
Proof.
  intros Hout. unfold convert_with_simple_fallback. cbn [try_backends].
  unfold default_output, lift_sum. rewrite Hout.
  destruct (audioread_confined w i (Some o) sr o eq_refl) as [Hc Hr].
  unfold_calls.
  split.
  - repeat first [exact Hc | confined_step].
  - apply returns_ret_bind. apply returns_or_next; [repeat returns_step|].
    intros fs p. unfold mbind, M_bind, bind.
    specialize (Hr fs). unfold returns_only, result_of in *.
    destruct (convert_m4a_with_audioread w i (Some o) sr fs) as [[[[q|]|e] g] t];
      cbn in *; try destruct (pystr.truthy q); cbn; try discriminate.
    intros [= <-]. by apply Hr.
Qed.

Lemma ffmpeg_script_confined w i output sr o :
  output_or_default i output = inr o ->
  confined i o (convert_m4a_to_wav w i output sr).
Proof.
  intros Hout. unfold convert_m4a_to_wav, check_ffmpeg, install_ffmpeg_instructions.
  unfold_calls. rewrite Hout.
  repeat confined_step.
Qed.

Lemma librosa_script_confined w i output sr o :
  output_or_default i output = inr o ->
  confined i o (convert_m4a_to_wav_librosa w i output sr) /\
  returns_path o (convert_m4a_to_wav_librosa w i output sr).
Proof.
  intros Hout. unfold convert_m4a_to_wav_librosa. unfold_calls. rewrite Hout.
  split; [repeat confined_step | repeat returns_step].
Qed.

(** What [confined] and [returns_path] say about one run. *)
Lemma confined_writes_only_at {A} i o (c : M A) fs :
  confined i o c -> writes_only_at o fs (c fs).
Proof.
  intros H. destruct (H fs fs eq_refl) as (_ & _ & Hu & Hw).
  split; [exact Hw|]. intros p Hp. by eapply same_update_frame.
Qed.

(** *** When the conversion functions convert *)

Section converts.

Variable w : World.
Variables (input : string) (output : option string) (sr : Z).
Variables (fs : gmap string bytes) (o : string).
Hypothesis Hout : output_or_default input output = inr o.

(** Where librosa decodes the input and soundfile writes the output, the
    three functions that start with librosa return the output path and
    leave the written file there. *)
Lemma convert_any_converts audio data :
  librosa_load w input (fs !! input) sr = inr audio ->
  sf_write w o audio sr = Written data ->
  converted o data (convert_any_audio_to_wav w input output sr fs).
Proof.
  intros Hload Hwrite.
  unfold converted, convert_any_audio_to_wav, method_librosa, result_of, files_of.
  unfold_monad. rewrite Hout. simpl. rewrite Hload. simpl. rewrite Hwrite. simpl.
  split; [reflexivity | apply lookup_insert_eq].
Qed.

Lemma simple_fallback_converts audio data :
  librosa_load w input (fs !! input) sr = inr audio ->
  sf_write w o audio sr = Written data ->
  converted o data (convert_with_simple_fallback w input output sr fs).
Proof.
  intros Hload Hwrite.
  unfold converted, convert_with_simple_fallback, result_of, files_of.
  cbn [try_backends]. unfold_monad. rewrite Hout. simpl. rewrite Hload. simpl.
  rewrite Hwrite. simpl.
  split; [reflexivity | apply lookup_insert_eq].
Qed.

Lemma librosa_script_converts audio data :
  librosa_load w input (fs !! input) sr = inr audio ->
  sf_write w o audio sr = Written data ->
  converted o data (convert_m4a_to_wav_librosa w input output sr fs).
Proof.
  intros Hload Hwrite.
  unfold converted, convert_m4a_to_wav_librosa, result_of, files_of.
  unfold_monad. rewrite Hload. simpl. rewrite Hout. simpl. rewrite Hwrite. simpl.
  split; [reflexivity | apply lookup_insert_eq].
Qed.

(** Where audioread is installed and decodes the input, and the samples,
    resampled when the native rate is another, are written. *)
Lemma audioread_converts f frames decoded audio data :
  audioread_import w = None ->
  audioread_open w input (fs !! input) = inr f ->
  read_frames f = inr frames ->
  bytes_to_audio (channels f) (concat frames) = inr decoded ->
  (if samplerate f =? sr then inr decoded
   else librosa_resample w decoded (samplerate f) sr) = inr audio ->
  sf_write w o audio sr = Written data ->
  converted o data (convert_m4a_with_audioread w input output sr fs).
Proof.
  intros Himp Hopen Hread Hdec Hres Hwrite.
  unfold converted, convert_m4a_with_audioread, result_of, files_of.
  unfold_monad. rewrite Himp. simpl. rewrite Hout. simpl. rewrite Hopen. simpl.
  rewrite Hread. simpl. rewrite Hdec. simpl.
  destruct (samplerate f =? sr); simpl.
  - injection Hres as ->. rewrite Hwrite. simpl.
    split; [reflexivity | apply lookup_insert_eq].
  - rewrite Hres. simpl. rewrite Hwrite. simpl.
    split; [reflexivity | apply lookup_insert_eq].
Qed.

(** Where ffmpeg is installed and converts the input. *)
Lemma ffmpeg_script_converts v p data :
  subprocess_run w ["ffmpeg"; "-version"] None = inr v -> returncode v = 0 ->
  subprocess_run w (ffmpeg_argv input o sr) (fs !! input) = inr p -> returncode p = 0 ->
  proc_output p = Some data ->
  let x := convert_m4a_to_wav w input output sr fs in
  result_of x = Return true /\ files_of x !! o = Some data.
Proof.
  intros Hv Hv0 Hp Hp0 Hdata.
  unfold convert_m4a_to_wav, check_ffmpeg, result_of, files_of.
  unfold_monad. simpl. rewrite Hv. simpl. rewrite Hv0. simpl. rewrite Hout. simpl.
  rewrite Hp. simpl. rewrite Hp0, Hdata. simpl.
  split; [reflexivity | apply lookup_insert_eq].
Qed.

End converts.

(** A run in priority order that returned a path made a successful attempt,
    which wrote at the output path. *)
Lemma in_order_written o l p t :
  in_order o l (Return (Some p)) t -> p = o /\ o ∈ written_paths t.
Proof.
  intros H. remember (Return (Some p)) as r eqn:Hr.
  induction H as [s rest t (_ & _ & Hw) | s rest r t1 t2 _ _ IH | line].
  - injection Hr as ->. split; [reflexivity|]. rewrite Hw. left.
  - destruct (IH Hr) as [-> Hin]. split; [reflexivity|].
    rewrite written_paths_app. apply elem_of_app. by right.
  - discriminate.
Qed.

Lemma convert_any_written w input output sr fs out p :
  output_or_default input output = inr out ->
  let x := convert_any_audio_to_wav w input output sr fs in
  result_of x = Return (Some p) -> p = out /\ out ∈ written_paths (events_of x).
Proof.
  intros Hout x Hp. subst x. apply (in_order_written out (strategies input)).
  rewrite <- Hp. rewrite convert_refines_iterator.
  unfold convert_in_order, default_output, lift_sum. rewrite Hout, bind_ret_l.
  apply first_success_in_order.
Qed.

(** C3. Called without an output path on an input path that has a name, each
    conversion function uses one output path, the input path with the
    extension of its last component replaced by [.wav]: it writes nowhere
    else and returns no other path; a run of [convert_any_audio_to_wav] that
    returns a path has made a writing call that names it; and where its
    backend decodes the input and the writer succeeds, each function writes
    the WAV file at that path and returns the path ([True] for the ffmpeg
    script). *)
Theorem default_output_replaces_extension w input sr fs :
  pathlib.name (pathlib.of_str input) <> "" ->
  let o := wav_path_for input in
  ((writes_only_at o fs (convert_any_audio_to_wav w input None sr fs) /\
    returns_only o (convert_any_audio_to_wav w input None sr fs)) /\
   (writes_only_at o fs (convert_with_simple_fallback w input None sr fs) /\
    returns_only o (convert_with_simple_fallback w input None sr fs)) /\
   writes_only_at o fs (convert_m4a_to_wav w input None sr fs) /\
   (writes_only_at o fs (convert_m4a_with_audioread w input None sr fs) /\
    returns_only o (convert_m4a_with_audioread w input None sr fs)) /\
   (writes_only_at o fs (convert_m4a_to_wav_librosa w input None sr fs) /\
    returns_only o (convert_m4a_to_wav_librosa w input None sr fs))) /\
  (forall p, result_of (convert_any_audio_to_wav w input None sr fs) = Return (Some p) ->
             p = o /\
             o ∈ written_paths (events_of (convert_any_audio_to_wav w input None sr fs))) /\
  (forall audio data,
     librosa_load w input (fs !! input) sr = inr audio ->
     sf_write w o audio sr = Written data ->
     converted o data (convert_any_audio_to_wav w input None sr fs) /\
     converted o data (convert_with_simple_fallback w input None sr fs) /\
     converted o data (convert_m4a_to_wav_librosa w input None sr fs)) /\
  (forall f frames decoded audio data,
     audioread_import w = None ->
     audioread_open w input (fs !! input) = inr f ->
     read_frames f = inr frames ->
     bytes_to_audio (channels f) (concat frames) = inr decoded ->
     (if samplerate f =? sr then inr decoded
      else librosa_resample w decoded (samplerate f) sr) = inr audio ->
     sf_write w o audio sr = Written data ->
     converted o data (convert_m4a_with_audioread w input None sr fs)) /\
  (forall v p data,
     subprocess_run w ["ffmpeg"; "-version"] None = inr v -> returncode v = 0 ->
     subprocess_run w (ffmpeg_argv input o sr) (fs !! input) = inr p ->
     returncode p = 0 ->
     proc_output p = Some data ->
     result_of (convert_m4a_to_wav w input None sr fs) = Return true /\
     files_of (convert_m4a_to_wav w input None sr fs) !! o = Some data).
Proof.
  intros Hname o. apply default_output_is_wav_path in Hname.
  destruct (convert_any_confined w input None sr o Hname) as [Hc1 Hr1].
  destruct (simple_fallback_confined w input None sr o Hname) as [Hc2 Hr2].
  destruct (audioread_confined w input None sr o Hname) as [Hc3 Hr3].
  destruct (librosa_script_confined w input None sr o Hname) as [Hc4 Hr4].
  pose proof (ffmpeg_script_confined w input None sr o Hname) as Hc5.
  split; [|split; [|split; [|split]]].
  - repeat split;
      first [ by apply (confined_writes_only_at input)
            | by apply (confined_writes_only_at input) | done ].
  - intros p Hp. by apply (convert_any_written w input None sr fs o p Hname).
  - intros audio data Hload Hwrite. split; [|split].
    + by eapply convert_any_converts.
    + by eapply simple_fallback_converts.
    + by eapply librosa_script_converts.
  - intros f frames decoded audio data ? ? ? ? ? ?. by eapply audioread_converts.
  - intros v p data ? ? ? ? ?. by eapply ffmpeg_script_converts.
Qed.

Lemma default_output_replaces_extension_witness :
  let mp3 := convert_any_audio_to_wav demo.studio "in/take.mp3" None 16000
               demo.album_disk in
  let m4a := convert_m4a_with_audioread demo.studio "in/take.m4a" None 16000
               demo.album_disk in
  let ff := convert_m4a_to_wav demo.studio "in/take.m4a" None 16000 demo.album_disk in
  wav_path_for "in/take.mp3" = "in/take.wav" /\
  wav_path_for "in/take.m4a" = "in/take.wav" /\
  writes_only_at "in/take.wav" demo.album_disk mp3 /\
  converted "in/take.wav" [demo.wav_tag; Byte.x80; Byte.x81] mp3 /\
  converted "in/take.wav" [demo.wav_tag; Byte.x81] m4a /\
  result_of ff = Return true /\
  files_of ff !! "in/take.wav"
  = Some [demo.wav_tag; Byte.x01; Byte.x00; Byte.x00; Byte.x40].
Proof.
  destruct (default_output_replaces_extension demo.studio "in/take.mp3" 16000
              demo.album_disk) as (((Hw & _) & _) & _ & Hlibrosa & _ & _); [discriminate|].
  destruct (default_output_replaces_extension demo.studio "in/take.m4a" 16000
              demo.album_disk) as (_ & _ & _ & Haudioread & Hffmpeg); [discriminate|].
  split; [reflexivity|]. split; [reflexivity|]. split; [exact Hw|].
  split; [|split].
  - apply (Hlibrosa (demo.sample_of_byte <$> [Byte.x80; Byte.x90])
                    [demo.wav_tag; Byte.x80; Byte.x81]); reflexivity.
  - apply (Haudioread
             (mk_audio_file 16000 1 1 (inr [[Byte.x00; Byte.x40]]))
             [[Byte.x00; Byte.x40]] [1 # 2]%Q [1 # 2]%Q [demo.wav_tag; Byte.x81]);
      reflexivity.
  - apply (Hffmpeg (mk_completed 0 "" None)
             (mk_completed 0 "" (Some [demo.wav_tag; Byte.x01; Byte.x00; Byte.x00; Byte.x40]))
             [demo.wav_tag; Byte.x01; Byte.x00; Byte.x00; Byte.x40]); reflexivity.
Defined.

Example replace_extension_examples :
  replace_extension "voice.m4a" = "voice.wav" /\
  replace_extension "take.1.MP3" = "take.1.wav" /\
  replace_extension "README" = "README.wav" /\
  replace_extension ".hidden" = ".hidden.wav" /\
  replace_extension "trailing." = "trailing..wav" /\
  wav_path_for "./a//b/voice.m4a" = "a/b/voice.wav".
Proof. repeat split. Qed.

(** ** What a conversion reads and keeps *)

(** The converter reads the file system at the input path only. *)
Lemma convert_any_reads_input_only w input output sr fs fs' out :
  output_or_default input output = inr out ->
  fs !! input = fs' !! input ->
  let x := convert_any_audio_to_wav w input output sr fs in
  let x' := convert_any_audio_to_wav w input output sr fs' in
  result_of x = result_of x' /\ events_of x = events_of x' /\
  same_update out fs (files_of x) fs' (files_of x').
Proof.
  intros Hout Hin x x'.
  destruct (convert_any_confined w input output sr out Hout) as [Hc _].
  destruct (Hc fs fs' Hin) as (Hr & He & Hu & _). auto.
Qed.

(** A conversion to another path leaves the input file as it was. *)
Lemma convert_any_keeps_input w input output sr fs out :
  output_or_default input output = inr out ->
  input <> out ->
  files_of (convert_any_audio_to_wav w input output sr fs) !! input = fs !! input.
Proof.
  intros Hout Hne.
  destruct (convert_any_confined w input output sr out Hout) as [Hc _].
  by apply (confined_writes_only_at input out _ fs Hc).
Qed.

(** ** The batch driver *)

(** C7 (the code departs from it).  Two folders.  In the first, one matched
    file can be converted and one cannot, yet the driver reports two
    successes and no failure: the output of [song.mp3] is written over the
    damaged [song.wav] before that file's turn comes.  In the second, both
    matched files can be converted, yet one WAV file is produced: both
    outputs are named after the common stem. *)
Theorem batch_overwrites_same_stem :
  let w1 := demo.world true true true demo.folder in
  let x1 := convert_directory_librosa w1 "in" None 16000 demo.folder_disk in
  let w2 := demo.world true true true demo.album in
  let x2 := convert_directory_librosa w2 "in" None 16000 demo.album_disk in
  (convertible w1 16000 demo.folder_disk "in/song.mp3" "in/song.wav" = true /\
   convertible w1 16000 demo.folder_disk "in/song.wav" "in/song.wav" = false /\
   converter_calls (events_of x1) = 2%nat /\
   reported_successes (events_of x1) = 2%nat /\
   reported_failures (events_of x1) = 0%nat) /\
  (convertible w2 16000 demo.album_disk "in/take.mp3" "in/take.wav" = true /\
   convertible w2 16000 demo.album_disk "in/take.m4a" "in/take.wav" = true /\
   converter_calls (events_of x2) = 2%nat /\
   reported_successes (events_of x2) = 2%nat /\
   distinct_outputs (events_of x2) = {["in/take.wav"]}).
Proof.
  repeat split; vm_compute; reflexivity.
Qed.

(** What one attempt prints: the opening line of the converter when it is
    the first, never the closing line of a failure, and the closing line of
    a success exactly when it returns the path. *)
Lemma attempt_reports w s i o sr fs :
  let x := attempt w s i o sr fs in
  converter_calls (events_of x) = (if decide (s = Librosa) then 1 else 0)%nat /\
  reported_failures (events_of x) = 0%nat /\
  ((result_of x = Return (Some o) /\ reported_successes (events_of x) = 1%nat) \/
   (result_of x = Return None /\ reported_successes (events_of x) = 0%nat)).
Proof.
  unfold converter_calls, reported_successes, reported_failures, count_lines, printed.
  unfold result_of, events_of.
  destruct s; unfold attempt, method_librosa, method_pydub, method_ffmpeg;
    unfold_monad; repeat oracle; auto.
Qed.

Lemma or_next_run {A} (c1 c2 : M (option A)) fs :
  or_next c1 c2 fs
  = match c1 fs with
    | (Return (Some v), g, t) => (Return (Some v), g, t)
    | (Return None, g, t) => let '(r, h, t2) := c2 g in (r, h, t ++ t2)
    | (Raise e, g, t) => (Raise e, g, t)
    end.
Proof.
  unfold or_next, mbind, M_bind, bind, ret.
  destruct (c1 fs) as [[[[v|]|e] g] t]; [by rewrite app_nil_r | reflexivity | reflexivity].
Qed.

Lemma first_success_cons c rest all_failed :
  first_success (c :: rest) all_failed = or_next c (first_success rest all_failed).
Proof. reflexivity. Qed.

Lemma count_lines_app pre t1 t2 :
  count_lines pre (t1 ++ t2) = (count_lines pre t1 + count_lines pre t2)%nat.
Proof.
  unfold count_lines, printed. by rewrite omap_app, List.filter_app, length_app.
Qed.

(** The iterator prints one closing line: of a success when it returns the
    path, of a failure when it returns [None]; and one opening line of the
    converter for each librosa attempt among its candidates. *)
Lemma first_success_reports w i o sr l :
  forall fs,
    let x := first_success ((fun s => attempt w s i o sr) <$> l)
               (print ("All conversion methods failed for " +:+ i);; ret None) fs in
    (Librosa ∉ l -> converter_calls (events_of x) = 0%nat) /\
    ((result_of x = Return (Some o) /\
      reported_successes (events_of x) = 1%nat /\
      reported_failures (events_of x) = 0%nat) \/
     (result_of x = Return None /\
      reported_successes (events_of x) = 0%nat /\
      reported_failures (events_of x) = 1%nat)).
Proof.
  induction l as [|s l IH]; intros fs; cbn [fmap list_fmap].
  - split; [reflexivity | right; repeat split; reflexivity].
  - rewrite first_success_cons. cbv zeta. rewrite or_next_run.
    pose proof (attempt_reports w s i o sr fs) as (Hc & Hf & Hs). cbv zeta in Hc, Hf, Hs.
    destruct (attempt w s i o sr fs) as [[r g] t].
    unfold result_of, events_of in Hc, Hf, Hs. cbn [fst snd] in Hc, Hf, Hs.
    destruct Hs as [[-> Hs] | [-> Hs]].
    + unfold result_of, events_of. cbn [fst snd]. split; [|by left].
      intros Hl. rewrite Hc. destruct (decide (s = Librosa)) as [->|]; [|reflexivity].
      exfalso. apply Hl. left.
    + specialize (IH g). cbv zeta in IH.
      destruct (first_success _ _ g) as [[r2 h] t2].
      unfold result_of, events_of in *. cbn [fst snd] in *.
      unfold converter_calls, reported_successes, reported_failures in *.
      rewrite !count_lines_app, Hc, Hf, Hs. cbn [plus].
      destruct IH as [IHc IH]. split; [|exact IH].
      intros Hl. rewrite IHc.
      * destruct (decide (s = Librosa)) as [->|]; [|reflexivity].
        exfalso. apply Hl. left.
      * intros Hin. apply Hl. by right.
Qed.

Lemma convert_any_reports w i o sr fs :
  let x := convert_any_audio_to_wav w i (Some o) sr fs in
  converter_calls (events_of x) = 1%nat /\
  ((result_of x = Return (Some o) /\
    reported_successes (events_of x) = 1%nat /\
    reported_failures (events_of x) = 0%nat) \/
   (result_of x = Return None /\
    reported_successes (events_of x) = 0%nat /\
    reported_failures (events_of x) = 1%nat)).
Proof.
  intros x. subst x. rewrite convert_refines_iterator.
  unfold convert_in_order, default_output, output_or_default, lift_sum.
  rewrite bind_ret_l.
  pose proof (first_success_reports w i o sr (strategies i) fs) as [_ Hrep].
  cbv zeta in Hrep. split; [|exact Hrep]. clear Hrep.
  unfold strategies. cbn [app fmap list_fmap].
  rewrite first_success_cons, or_next_run.
  pose proof (attempt_reports w Librosa i o sr fs) as (Hc & Hf & Hs).
  cbv zeta in Hc, Hf, Hs.
  destruct (attempt w Librosa i o sr fs) as [[r g] t].
  unfold result_of, events_of in Hc, Hf, Hs. cbn [fst snd] in Hc, Hf, Hs.
  destruct Hs as [[-> Hs] | [-> Hs]]; [exact Hc|].
  pose proof (first_success_reports w i o sr
                ((if is_m4a i then [Pydub] else []) ++ [Ffmpeg]) g) as [Hrest _].
  cbv zeta in Hrest.
  destruct (first_success _ _ g) as [[r2 h] t2].
  unfold events_of in *. cbn [fst snd] in *.
  unfold converter_calls in *. rewrite count_lines_app, Hc, Hrest; [reflexivity|].
  destruct (is_m4a i); cbn [app]; intros H;
    repeat (apply elem_of_cons in H as [H|H]; [discriminate|]);
    by apply elem_of_nil in H.
Qed.

Lemma glob_all_run w dir patterns fs :
  exists t, glob_all w dir patterns fs
            = (Return (concat
                 ((fun pattern =>
                     (fun name => pathlib.mk_path (pathlib.root dir)
                                    (pathlib.parts dir ++ [name]))
                       <$> List.filter (fun name => fnmatch name pattern)
                                       (scandir w (pathlib.to_str dir)))
                    <$> patterns)), fs, t) /\
            printed t = [].
Proof.
  induction patterns as [|pat patterns (t & IH & Ht)]; simpl.
  - exists []. split; reflexivity.
  - unfold glob at 1. unfold_monad. rewrite IH. simpl.
    eexists. split; [reflexivity|]. simpl. rewrite app_nil_r. exact Ht.
Qed.

(** The driver's loop, when no conversion writes over a file still to be
    converted: every file is judged as the folder held it at the start. *)
Lemma convert_each_counts w outp sr fs0 files :
  forall fs,
    (forall f, f ∈ files -> fs !! pathlib.to_str f = fs0 !! pathlib.to_str f) ->
    no_clobber outp files ->
    let x := convert_each w outp files sr fs in
    result_of x = Return tt /\
    converter_calls (events_of x) = length files /\
    reported_successes (events_of x) = length (convertible_files w sr fs0 outp files) /\
    reported_failures (events_of x) = length (unconvertible_files w sr fs0 outp files).
Proof.
  induction files as [|f files IH]; intros fs Hsame Hclobber.
  - repeat split; reflexivity.
  - destruct Hclobber as [Hout Hclobber].
    cbn [convert_each]. fold (wav_file_for outp f).
    unfold convertible_files, unconvertible_files. cbn [List.filter].
    fold (convertible_files w sr fs0 outp files).
    fold (unconvertible_files w sr fs0 outp files).
    set (i := pathlib.to_str f). set (o := wav_file_for outp f).
    pose proof (convert_any_reports w i o sr fs) as (Hc & Hrep).
    pose proof (confined_writes_only_at i o _ fs
                  (proj1 (convert_any_confined w i (Some o) sr o eq_refl)))
      as [_ Hframe].
    assert (fs0 !! i = fs !! i) as Hi by (symmetry; apply Hsame; left).
    pose proof (convert_any_reads_input_only w i (Some o) sr fs0 fs o eq_refl Hi)
      as (Hres & _ & _).
    unfold convertible. rewrite Hres.
    unfold mbind, M_bind, bind.
    destruct (convert_any_audio_to_wav w i (Some o) sr fs) as [[r fs1] t1].
    unfold result_of, events_of, files_of in Hc, Hrep, Hframe.
    cbn [fst snd] in Hc, Hrep, Hframe.
    destruct (IH fs1) as (IHr & IHc & IHs & IHf); [|exact Hclobber|].
    { intros g Hg. rewrite Hframe.
      - apply Hsame. by right.
      - rewrite List.Forall_forall in Hout. intros E. apply (Hout g); [|by symmetry].
        by apply list_elem_of_In. }
    destruct (convert_each w outp files sr fs1) as [[r2 fs2] t2].
    unfold result_of, events_of in *. cbn [fst snd] in *.
    unfold converter_calls, reported_successes, reported_failures in *.
    destruct Hrep as [(-> & Hs & Hf) | (-> & Hs & Hf)]; cbn [fst snd negb length];
      rewrite !count_lines_app, Hc, Hs, Hf, IHc, IHs, IHf; auto.
Qed.

Lemma count_lines_silent pre t : printed t = [] -> count_lines pre t = 0%nat.
Proof. unfold count_lines. by intros ->. Qed.

(** The driver, when the output folder can be made and no conversion writes
    over a file still to be converted: it calls the converter once per
    matched file and reports as many successes and failures as there are
    matched files that can and cannot be converted. *)
Lemma batch_counts_without_clobbering w input_dir output_dir sr fs :
  let input_path := pathlib.of_str input_dir in
  let output_path :=
    match output_dir with None => input_path | Some d => pathlib.of_str d end in
  let files := matched_files w input_path in
  (forall d, output_dir = Some d -> mkdir w (pathlib.to_str (pathlib.of_str d)) = None) ->
  no_clobber output_path files ->
  let x := convert_directory_librosa w input_dir output_dir sr fs in
  result_of x = Return tt /\
  converter_calls (events_of x) = length files /\
  reported_successes (events_of x)
    = length (convertible_files w sr fs output_path files) /\
  reported_failures (events_of x)
    = length (unconvertible_files w sr fs output_path files).
Proof.
  intros input_path output_path files Hmkdir Hclobber x. subst x.
  destruct (glob_all_run w input_path supported_formats fs) as (tg & Hglob & Hsilent).
  fold (matched_files w input_path) in Hglob. fold files in Hglob.
  pose proof (convert_each_counts w output_path sr fs files fs (fun _ _ => eq_refl)
                Hclobber) as Heach.
  cbv zeta in Heach.
  assert (exists tm,
    convert_directory_librosa w input_dir output_dir sr fs
    = (let '(r, fs', t) :=
         match files with
         | [] => print ("No supported audio files found in " +:+ input_dir) fs
         | _ => (print ("Found " +:+ pretty (Z.of_nat (length files))
                          +:+ " audio files to convert...");;
                 convert_each w output_path files sr) fs
         end in (r, fs', tm ++ t)) /\
    printed tm = []) as (tm & -> & Hmsilent).
  { unfold convert_directory_librosa. cbv zeta. fold input_path.
    destruct output_dir as [d|]; subst output_path.
    - exists (Call (Mkdir (pathlib.to_str (pathlib.of_str d))) Ok :: tg).
      split; [|exact Hsilent].
      unfold mbind, M_bind, bind, extern, ret, print.
      rewrite (Hmkdir d eq_refl), Hglob.
      destruct files; [reflexivity|].
      destruct (convert_each _ _ _ _ _) as [[r fs'] t]. simpl. reflexivity.
    - exists tg. split; [|exact Hsilent].
      unfold mbind, M_bind, bind, ret, print. rewrite Hglob.
      destruct files; [reflexivity|].
      destruct (convert_each _ _ _ _ _) as [[r fs'] t]. simpl. reflexivity. }
  destruct files as [|f files'] eqn:Hfiles.
  - unfold print. unfold result_of, events_of. cbn [fst snd].
    unfold converter_calls, reported_successes, reported_failures.
    rewrite !count_lines_app, !(count_lines_silent _ tm) by assumption.
    repeat split; reflexivity.
  - rewrite <- Hfiles in *. clear Hfiles.
    unfold mbind, M_bind, bind, print.
    destruct (convert_each w output_path files sr fs) as [[r fs'] t].
    unfold result_of, events_of in *. cbn [fst snd] in *.
    unfold converter_calls, reported_successes, reported_failures in *.
    rewrite !count_lines_app, !(count_lines_silent _ tm) by assumption.
    destruct Heach as (-> & -> & -> & ->). repeat split; reflexivity.
Qed.

(** * Further properties of the scripts *)

(** ** The samples of the audioread path *)

Lemma int16_le_range lo hi : -32768 <= numpy.int16_le lo hi <= 32767.
Proof.
  unfold numpy.int16_le.
  pose proof (Byte.to_N_bounded lo). pose proof (Byte.to_N_bounded hi).
  destruct (_ <? 32768) eqn:E; [apply Z.ltb_lt in E | apply Z.ltb_ge in E]; lia.
Qed.

Lemma to_float_range v :
  -32768 <= v <= 32767 -> in_unit_range (numpy.to_float v).
Proof.
  intros Hv. unfold in_unit_range, numpy.to_float. rewrite Qred_correct.
  unfold Qle, Qlt, Qdiv, Qmult, Qinv, inject_Z. simpl. lia.
Qed.

Lemma mean_range x y :
  in_unit_range x -> in_unit_range y -> in_unit_range (Qred ((x + y) / 2)).
Proof.
  unfold in_unit_range. intros [? ?] [? ?]. rewrite Qred_correct.
  split.
  - apply Qle_shift_div_l; [reflexivity | lra].
  - apply Qlt_shift_div_r; [reflexivity | lra].
Qed.

Lemma decode_int16_range b raw :
  decode_int16 b = inr raw -> Forall in_unit_range raw.
Proof.
  unfold decode_int16.
  destruct (numpy.frombuffer_int16 b) as [a|] eqn:Ha; [|discriminate].
  intros [= <-]. apply Forall_fmap.
  revert a Ha. induction b as [b IH] using (induction_ltof1 _ (@length _)).
  unfold ltof in IH. intros a Ha.
  destruct b as [|lo [|hi b]]; simpl in Ha.
  - injection Ha as <-. constructor.
  - discriminate.
  - destruct (numpy.frombuffer_int16 b) as [a'|] eqn:Hb; [|discriminate].
    injection Ha as <-. constructor.
    + apply to_float_range, int16_le_range.
    + apply (IH b); [simpl; lia | exact Hb].
Qed.

Lemma reshape2_mean_range a mono :
  numpy.reshape2_mean a = Some mono -> Forall in_unit_range a -> Forall in_unit_range mono.
Proof.
  revert mono. induction a as [a IH] using (induction_ltof1 _ (@length _)).
  unfold ltof in IH. intros mono H Ha.
  destruct a as [|x [|y a]]; simpl in H.
  - injection H as <-. constructor.
  - discriminate.
  - destruct (numpy.reshape2_mean a) as [m|] eqn:Hm; [|discriminate].
    injection H as <-.
    apply Forall_cons in Ha as [Hx Ha]. apply Forall_cons in Ha as [Hy Ha].
    constructor; [by apply mean_range|].
    apply (IH a); [simpl; lia | exact Hm | exact Ha].
Qed.

(** X1. Every sample the audioread path decodes, down-mixed or not, lies in
    the range of a float WAV sample: at least -1 and below 1. *)
Theorem decoded_samples_in_unit_range n b audio :
  bytes_to_audio n b = inr audio -> Forall in_unit_range audio.
Proof.
  unfold bytes_to_audio. destruct (n =? 2).
  - destruct (decode_int16 b) as [e|raw] eqn:Hraw; [discriminate|].
    destruct (numpy.reshape2_mean raw) as [m|] eqn:Hm; [|discriminate].
    intros [= <-]. eapply reshape2_mean_range; [exact Hm|].
    by eapply decode_int16_range.
  - apply decode_int16_range.
Qed.

Lemma decoded_samples_in_unit_range_witness :
  Forall in_unit_range [-1; 32767 # 32768]%Q.
Proof.
  apply (decoded_samples_in_unit_range 1 [Byte.x00; Byte.x80; Byte.xff; Byte.x7f]).
  reflexivity.
Defined.

Lemma frombuffer_int16_size b :
  match numpy.frombuffer_int16 b with
  | Some a => length b = (2 * length a)%nat
  | None => exists m, length b = (2 * m + 1)%nat
  end.
Proof.
  induction b as [b IH] using (induction_ltof1 _ (@length _)). unfold ltof in IH.
  destruct b as [|lo [|hi b]]; simpl.
  - reflexivity.
  - by exists 0%nat.
  - specialize (IH b ltac:(simpl; lia)).
    destruct (numpy.frombuffer_int16 b) as [a|]; simpl.
    + lia.
    + destruct IH as [m ->]. exists (S m). lia.
Qed.

Lemma reshape2_mean_size (a : samples) :
  match numpy.reshape2_mean a with
  | Some mono => length a = (2 * length mono)%nat
  | None => exists m, length a = (2 * m + 1)%nat
  end.
Proof.
  induction a as [a IH] using (induction_ltof1 _ (@length _)). unfold ltof in IH.
  destruct a as [|x [|y a]]; simpl.
  - reflexivity.
  - by exists 0%nat.
  - specialize (IH a ltac:(simpl; lia)).
    destruct (numpy.reshape2_mean a) as [m|]; simpl.
    + lia.
    + destruct IH as [m ->]. exists (S m). lia.
Qed.

(** X2. The audioread path decodes a buffer exactly when its size is a
    multiple of the frame size, two bytes per sample and, for two channels,
    two samples per frame: it then yields one sample per frame, and
    otherwise fails with a [ValueError]. *)
Theorem bytes_to_audio_size (n : Z) (b : bytes) :
  let frame : nat := if n =? 2 then 4%nat else 2%nat in
  match bytes_to_audio n b with
  | inr audio => length b = (frame * length audio)%nat
  | inl e => exn_cls e = ValueError /\ forall m, length b <> (frame * m)%nat
  end.
Proof.
  unfold bytes_to_audio, decode_int16.
  pose proof (frombuffer_int16_size b) as Hb.
  destruct (n =? 2); destruct (numpy.frombuffer_int16 b) as [a|]; simpl.
  - pose proof (reshape2_mean_size (numpy.to_float <$> a)) as Ha.
    rewrite length_fmap in Ha.
    destruct (numpy.reshape2_mean _) as [mono|]; simpl.
    + lia.
    + destruct Ha as [k Ha]. split; [reflexivity | lia].
  - destruct Hb as [k Hb]. split; [reflexivity | lia].
  - rewrite length_fmap. exact Hb.
  - destruct Hb as [k Hb]. split; [reflexivity | lia].
Qed.

Lemma reshape2_mean_lookup (a mono : samples) :
  numpy.reshape2_mean a = Some mono ->
  forall k l r,
    a !! (2 * k)%nat = Some l -> a !! (2 * k + 1)%nat = Some r ->
    exists m, mono !! k = Some m /\ (m == (l + r) / 2)%Q.
Proof.
  intros H k. revert a mono H.
  induction k as [|k IH]; intros a mono H l r Hl Hr;
    destruct a as [|x [|y a]]; simpl in H; try discriminate;
    destruct (numpy.reshape2_mean a) as [m'|] eqn:Hm; try discriminate;
    injection H as <-.
  - simpl in Hl, Hr. injection Hl as <-. injection Hr as <-.
    eexists. split; [reflexivity | apply Qred_correct].
  - replace (2 * S k)%nat with (S (S (2 * k))) in Hl by lia.
    replace (2 * S k + 1)%nat with (S (S (2 * k + 1))) in Hr by lia.
    simpl in Hl, Hr. simpl. by eapply IH.
Qed.

(** X3. For a two-channel file the audioread path writes, for every frame,
    the arithmetic mean of its left and right samples. *)
Theorem stereo_sample_is_mean b audio :
  bytes_to_audio 2 b = inr audio ->
  exists raw,
    decode_int16 b = inr raw /\
    length raw = (2 * length audio)%nat /\
    forall k l r,
      raw !! (2 * k)%nat = Some l -> raw !! (2 * k + 1)%nat = Some r ->
      exists m, audio !! k = Some m /\ (m == (l + r) / 2)%Q.
Proof.
  unfold bytes_to_audio. simpl.
  destruct (decode_int16 b) as [e|raw]; [discriminate|].
  pose proof (reshape2_mean_size raw) as Hsize.
  destruct (numpy.reshape2_mean raw) as [mono|] eqn:Hm; [|discriminate].
  intros [= <-]. exists raw. split; [reflexivity|]. split; [exact Hsize|].
  by apply reshape2_mean_lookup.
Qed.

Lemma stereo_sample_is_mean_witness :
  exists raw,
    decode_int16 [Byte.x00; Byte.x40; Byte.x00; Byte.x20] = inr raw /\
    length raw = 2%nat /\
    forall k l r,
      raw !! (2 * k)%nat = Some l -> raw !! (2 * k + 1)%nat = Some r ->
      exists m, [3 # 8]%Q !! k = Some m /\ (m == (l + r) / 2)%Q.
Proof.
  apply (stereo_sample_is_mean [Byte.x00; Byte.x40; Byte.x00; Byte.x20] [3 # 8]%Q).
  reflexivity.
Defined.

(** ** Which functions raise *)

Section never_raises.

Context {A B : Type}.

Lemma never_raises_ret (a : A) : never_raises (ret a).
Proof. intros fs. by exists a. Qed.

Lemma never_raises_print line : never_raises (print line).
Proof. intros fs. by exists tt. Qed.

Lemma never_raises_bind (c : M A) (k : A -> M B) :
  never_raises c -> (forall a, never_raises (k a)) -> never_raises (c ≫= k).
Proof.
  intros Hc Hk fs. unfold mbind, M_bind, bind.
  destruct (Hc fs) as [a Ha]. destruct (c fs) as [[r g] t].
  unfold result_of in Ha. cbn in Ha. subst r.
  destruct (Hk a g) as [b Hb]. destruct (k a g) as [[r h] t2].
  exists b. exact Hb.
Qed.

Lemma never_raises_try (c : M A) (h : exn -> M A) :
  (forall e, never_raises (h e)) -> never_raises (try_except c h).
Proof.
  intros Hh fs. unfold try_except.
  destruct (c fs) as [[[a|e] g] t]; [by exists a|].
  destruct (Hh e g) as [b Hb]. destruct (h e g) as [[r k] t2].
  exists b. exact Hb.
Qed.

End never_raises.

Lemma never_raises_or_next {A} (c1 c2 : M (option A)) :
  never_raises c1 -> never_raises c2 -> never_raises (or_next c1 c2).
Proof.
  intros H1 H2. apply never_raises_bind; [exact H1|].
  intros [v|]; [apply never_raises_ret | exact H2].
Qed.

Ltac never_raises_step :=
  first
    [ apply never_raises_ret | apply never_raises_print
    | apply never_raises_try; intros ?
    | apply never_raises_or_next
    | apply never_raises_bind; [|intros ?]
    | match goal with |- never_raises (if ?b then _ else _) => destruct b end
    | match goal with |- never_raises (match ?x with _ => _ end) => destruct x end ].

Lemma audioread_never_raises w input output sr :
  never_raises (convert_m4a_with_audioread w input output sr).
Proof. unfold convert_m4a_with_audioread. repeat never_raises_step. Qed.

Lemma librosa_script_never_raises w input output sr :
  never_raises (convert_m4a_to_wav_librosa w input output sr).
Proof. unfold convert_m4a_to_wav_librosa. repeat never_raises_step. Qed.

Lemma convert_any_never_raises w input o sr :
  never_raises (convert_any_audio_to_wav w input (Some o) sr).
Proof.
  unfold convert_any_audio_to_wav, method_librosa, method_pydub, method_ffmpeg.
  unfold default_output, lift_sum, output_or_default.
  apply never_raises_bind; [apply never_raises_ret|]. intros ?.
  repeat never_raises_step.
Qed.

Lemma simple_fallback_never_raises w input o sr :
  never_raises (convert_with_simple_fallback w input (Some o) sr).
Proof.
  unfold convert_with_simple_fallback. cbn [try_backends].
  unfold default_output, lift_sum, output_or_default.
  apply never_raises_bind; [apply never_raises_ret|]. intros ?.
  repeat first [apply audioread_never_raises | never_raises_step].
Qed.

(** The default output path fails exactly on an input path without a name. *)
Lemma with_suffix_wav_fails_iff input :
  (exists e, with_suffix_wav input = inl e /\ exn_cls e = ValueError) <->
  pathlib.name (pathlib.of_str input) = "".
Proof.
  unfold with_suffix_wav, pathlib.with_suffix.
  destruct (pathlib.name (pathlib.of_str input)) as [|c n]; simpl.
  - split; [reflexivity | eauto].
  - split; [intros (e & [=] & _) | discriminate].
Qed.

Lemma output_or_default_some input o : output_or_default input (Some o) = inr o.
Proof. reflexivity. Qed.

Ltac success_or_failure :=
  first
    [ right; eexists; split; reflexivity
    | left; do 3 eexists; repeat split;
      first [ eassumption | apply lookup_insert_eq
            | apply list_elem_of_In; simpl; auto 10 ] ].

(** X4. [convert_m4a_with_audioread] never raises, whatever the input: either
    it returns the output path, after [soundfile.write] has written the file
    at that path, or it returns [None] and the last line it printed starts
    with [Audioread conversion failed:]. *)
Theorem audioread_returns_path_or_none w input output sr fs :
  let x := convert_m4a_with_audioread w input output sr fs in
  (exists o audio data,
      result_of x = Return (Some o) /\
      output_or_default input output = inr o /\
      sf_write w o audio sr = Written data /\
      files_of x !! o = Some data /\
      Call (SfWrite o audio sr) Ok ∈ events_of x) \/
  (exists m,
      result_of x = Return None /\
      last (events_of x) = Some (Print ("Audioread conversion failed: " +:+ m))).
Proof.
  unfold convert_m4a_with_audioread, result_of, events_of, files_of. unfold_monad.
  repeat oracle; success_or_failure.
Qed.

(** X5. [convert_m4a_to_wav_librosa] never raises, whatever the input: either
    it returns the output path, after [soundfile.write] has written the file
    at that path, or it returns [None] and the last line it printed starts
    with [Error converting] and names the input. *)
Theorem librosa_script_returns_path_or_none w input output sr fs :
  let x := convert_m4a_to_wav_librosa w input output sr fs in
  (exists o audio data,
      result_of x = Return (Some o) /\
      output_or_default input output = inr o /\
      sf_write w o audio sr = Written data /\
      files_of x !! o = Some data /\
      Call (SfWrite o audio sr) Ok ∈ events_of x) \/
  (exists m,
      result_of x = Return None /\
      last (events_of x)
      = Some (Print ("Error converting " +:+ input +:+ ": " +:+ m))).
Proof.
  unfold convert_m4a_to_wav_librosa, result_of, events_of, files_of. unfold_monad.
  repeat oracle; success_or_failure.
Qed.

(** With the output path at hand, the default is not computed. *)
Lemma convert_any_resolved w input output sr o fs :
  output_or_default input output = inr o ->
  convert_any_audio_to_wav w input output sr fs
  = convert_any_audio_to_wav w input (Some o) sr fs.
Proof.
  intros Ho. unfold convert_any_audio_to_wav, default_output.
  rewrite Ho. reflexivity.
Qed.

Lemma simple_fallback_resolved w input output sr o fs :
  output_or_default input output = inr o ->
  convert_with_simple_fallback w input output sr fs
  = convert_with_simple_fallback w input (Some o) sr fs.
Proof.
  intros Ho. unfold convert_with_simple_fallback, default_output.
  rewrite Ho. reflexivity.
Qed.

Lemma output_or_default_fails input output e :
  output_or_default input output = inl e ->
  output = None /\ pathlib.name (pathlib.of_str input) = "" /\ exn_cls e = ValueError.
Proof.
  destruct output as [o|]; [discriminate|]. simpl. intros He.
  split; [reflexivity|].
  unfold with_suffix_wav, pathlib.with_suffix in He.
  destruct (pathlib.name (pathlib.of_str input)) as [|c n]; simpl in He.
  - injection He as <-. split; reflexivity.
  - discriminate.
Qed.

Lemma output_or_default_resolves input output o :
  output_or_default input output = inr o ->
  output <> None \/ pathlib.name (pathlib.of_str input) <> "".
Proof.
  destruct output as [p|]; [by left|]. simpl. intros Ho. right. intros Hn.
  destruct (proj2 (with_suffix_wav_fails_iff input) Hn) as (e & He & _).
  congruence.
Qed.

(** X6. [convert_any_audio_to_wav] raises in one case only: no output path
    is given and the input path has no name (as [''], ['.'] or ['/']), where
    [with_suffix] raises [ValueError] outside every [try]; then nothing was
    printed or called and no file was touched.  Every failure of a backend is
    caught. *)
Theorem convert_any_raises_only_without_name w input output sr fs :
  let x := convert_any_audio_to_wav w input output sr fs in
  match result_of x with
  | Raise e =>
      output = None /\ pathlib.name (pathlib.of_str input) = "" /\
      exn_cls e = ValueError /\ events_of x = [] /\ files_of x = fs
  | Return _ => output <> None \/ pathlib.name (pathlib.of_str input) <> ""
  end.
Proof.
  intros x. subst x.
  destruct (output_or_default input output) as [e|o] eqn:Ho.
  - unfold convert_any_audio_to_wav, default_output. rewrite Ho. simpl.
    destruct (output_or_default_fails _ _ _ Ho) as (-> & Hn & He).
    repeat split; assumption.
  - rewrite (convert_any_resolved _ _ _ _ _ _ Ho).
    destruct (convert_any_never_raises w input o sr fs) as [a ->].
    by apply output_or_default_resolves in Ho.
Qed.

(** X7. [convert_with_simple_fallback] raises in the same case only, and
    before anything is attempted. *)
Theorem simple_fallback_raises_only_without_name w input output sr fs :
  let x := convert_with_simple_fallback w input output sr fs in
  match result_of x with
  | Raise e =>
      output = None /\ pathlib.name (pathlib.of_str input) = "" /\
      exn_cls e = ValueError /\ events_of x = [] /\ files_of x = fs
  | Return _ => output <> None \/ pathlib.name (pathlib.of_str input) <> ""
  end.
Proof.
  intros x. subst x.
  destruct (output_or_default input output) as [e|o] eqn:Ho.
  - unfold convert_with_simple_fallback, default_output. rewrite Ho. simpl.
    destruct (output_or_default_fails _ _ _ Ho) as (-> & Hn & He).
    repeat split; assumption.
  - rewrite (simple_fallback_resolved _ _ _ _ _ _ Ho).
    destruct (simple_fallback_never_raises w input o sr fs) as [a ->].
    by apply output_or_default_resolves in Ho.
Qed.

(** X8. [convert_m4a_to_wav] raises the exception [e] in two cases only: the
    version check raised [e] and [e] is no [FileNotFoundError]; or the check
    passed, no output path is given and [with_suffix] raised [e] on an input
    path without a name.  What the conversion process itself raises is
    caught. *)
Theorem ffmpeg_script_raises_iff w input output sr fs e :
  result_of (convert_m4a_to_wav w input output sr fs) = Raise e <->
  (subprocess_run w ["ffmpeg"; "-version"] None = inl e /\
   exn_cls e <> FileNotFoundError) \/
  (exists p, subprocess_run w ["ffmpeg"; "-version"] None = inr p /\
             returncode p = 0 /\
             output_or_default input output = inl e).
Proof.
  unfold convert_m4a_to_wav. unfold mbind at 1. unfold M_bind, bind.
  rewrite check_ffmpeg_run.
  destruct (subprocess_run w _ None) as [e0|p0] eqn:Hv.
  - destruct (decide (exn_cls e0 = FileNotFoundError)) as [Hc|Hc].
    + cbn [negb]. destruct ((install_ffmpeg_instructions;; ret false) fs) as [[r g] t] eqn:Hi.
      assert (r = Return false) as ->.
      { unfold install_ffmpeg_instructions in Hi. unfold_monad. simpl in Hi. congruence. }
      unfold result_of. simpl. split; [discriminate|].
      intros [[[= <-] Hne] | (p & [=] & _)]. contradiction.
    + unfold result_of. simpl. split.
      * intros [= <-]. left. by split.
      * intros [[[= <-] _] | (p & [=] & _)]. reflexivity.
  - destruct (returncode p0 =? 0) eqn:Hrc; cbn [negb].
    + apply Z.eqb_eq in Hrc.
      unfold default_output. destruct (output_or_default input output) as [e1|o] eqn:Ho.
      * unfold result_of. simpl. split.
        -- intros [= <-]. right. exists p0. by repeat split.
        -- intros [[[=] _] | (p & [= <-] & _ & [= <-])]. reflexivity.
      * unfold result_of. unfold_monad. simpl.
        split; [|intros [[[=] _] | (p & _ & _ & [=])]].
        repeat oracle.
    + destruct ((install_ffmpeg_instructions;; ret false) fs) as [[r g] t] eqn:Hi.
      assert (r = Return false) as ->.
      { unfold install_ffmpeg_instructions in Hi. unfold_monad. simpl in Hi. congruence. }
      unfold result_of. simpl. split; [discriminate|].
      intros [[[=] _] | (p & [= <-] & Hz & _)]. apply Z.eqb_neq in Hrc. contradiction.
Qed.



(** X10. [convert_with_simple_fallback], given or having resolved a
    non-empty output path [o], ends in one of two ways.  It returns [o] and
    the last line printed is [Converted: <input> -> o]; or it returns [None]
    after all three attempts: both librosa attempts and the audioread
    attempt have printed their error, in this order, and the last line is
    [All methods failed for <input>]. *)
Theorem simple_fallback_outcomes w input output sr fs o :
  output_or_default input output = inr o ->
  o <> "" ->
  let x := convert_with_simple_fallback w input output sr fs in
  (result_of x = Return (Some o) /\
   last (events_of x) = Some (Print ("Converted: " +:+ input +:+ " -> " +:+ o))) \/
  (result_of x = Return None /\
   exists m1 m2 m3 mid,
     printed (events_of x)
     = ["Trying librosa with soundfile backend...";
        "Backend soundfile failed: " +:+ m1;
        "Trying librosa with audioread backend...";
        "Backend audioread failed: " +:+ m2]
         ++ mid ++
       ["Audioread conversion failed: " +:+ m3;
        "All methods failed for " +:+ input] /\
     (mid = [] \/ mid = ["Converting M4A using audioread: " +:+ input])).
Proof.
  intros Ho Hne x. subst x.
  rewrite (simple_fallback_resolved _ _ _ _ _ _ Ho).
  assert (pystr.truthy o = true) as Htruthy by (by destruct o).
  unfold convert_with_simple_fallback, convert_m4a_with_audioread.
  cbn [try_backends output_or_default].
  unfold result_of, events_of, printed. unfold_monad. cbn [output_or_default].
  simpl.
  repeat oracle; rewrite ?Htruthy; simpl.
  all: first
    [ left; split; reflexivity
    | right; split; [reflexivity|];
      do 3 eexists;
      first [ exists []; split; [reflexivity | left; reflexivity]
            | eexists [_]; split; [reflexivity | right; reflexivity] ] ].
Qed.

Lemma simple_fallback_outcomes_witness :
  last (events_of (convert_with_simple_fallback demo.studio "voice.m4a" None 16000
                     demo.disk))
  = Some (Print "Converted: voice.m4a -> voice.wav").
Proof.
  destruct (simple_fallback_outcomes demo.studio "voice.m4a" None 16000 demo.disk
              "voice.wav" eq_refl) as [[_ H] | [H _]].
  - discriminate.
  - exact H.
  - vm_compute in H. discriminate H.
Defined.

(** ** The batch driver, whatever the folder holds *)

(** The loop: one call of the converter per file, each reported as a success
    or as a failure, and writes at the output paths of the files only. *)
Lemma convert_each_totals w outp sr files :
  forall fs,
    let x := convert_each w outp files sr fs in
    result_of x = Return tt /\
    converter_calls (events_of x) = length files /\
    (reported_successes (events_of x) + reported_failures (events_of x))%nat
    = length files /\
    Forall (fun p => exists f, f ∈ files /\ p = wav_file_for outp f)
           (written_paths (events_of x)) /\
    forall p, (forall f, f ∈ files -> p <> wav_file_for outp f) ->
              files_of x !! p = fs !! p.
Proof.
  induction files as [|f files IH]; intros fs.
  - repeat split; try reflexivity. constructor.
  - cbn [convert_each]. fold (wav_file_for outp f).
    set (i := pathlib.to_str f). set (o := wav_file_for outp f).
    pose proof (convert_any_reports w i o sr fs) as (Hc & Hrep).
    pose proof (confined_writes_only_at i o _ fs
                  (proj1 (convert_any_confined w i (Some o) sr o eq_refl)))
      as [Hw Hframe].
    unfold mbind, M_bind, bind.
    destruct (convert_any_audio_to_wav w i (Some o) sr fs) as [[r fs1] t1].
    unfold result_of, events_of, files_of in Hc, Hrep, Hw, Hframe.
    cbn [fst snd] in Hc, Hrep, Hw, Hframe.
    destruct (IH fs1) as (IHr & IHc & IHs & IHw & IHf).
    destruct (convert_each w outp files sr fs1) as [[r2 fs2] t2].
    unfold result_of, events_of, files_of in *. cbn [fst snd] in *.
    unfold converter_calls, reported_successes, reported_failures in *.
    assert (r = Return (Some o) \/ r = Return None) as Hr
      by (destruct Hrep as [(-> & _) | (-> & _)]; auto).
    split; [destruct Hr as [-> | ->]; exact IHr|].
    split; [destruct Hr as [-> | ->]; cbn [snd length];
            rewrite count_lines_app, Hc, IHc; reflexivity|].
    split; [destruct Hrep as [(-> & Hs & Hf) | (-> & Hs & Hf)]; cbn [snd length];
            rewrite !count_lines_app, Hs, Hf; lia|].
    assert (Forall (fun p => exists g, g ∈ f :: files /\ p = wav_file_for outp g)
                   (written_paths (t1 ++ t2))) as Hall.
    { rewrite written_paths_app. apply Forall_app. split.
      - eapply Forall_impl; [exact Hw|]. intros p <-. exists f. split; [left|reflexivity].
      - eapply Forall_impl; [exact IHw|]. intros p (g & Hg & ->).
        exists g. split; [by right | reflexivity]. }
    assert (forall p, (forall g, g ∈ f :: files -> p <> wav_file_for outp g) ->
                      fs2 !! p = fs !! p) as Hkeep.
    { intros p Hp. rewrite IHf.
      - apply Hframe. apply Hp. left.
      - intros g Hg. apply Hp. by right. }
    destruct Hr as [-> | ->]; cbn [fst snd]; split; assumption.
Qed.

(** Listing the folder: one [glob] per pattern, in the order of the
    patterns, and nothing else. *)
Lemma glob_all_trace w dir patterns fs :
  glob_all w dir patterns fs
  = (Return (concat
       ((fun pattern =>
           (fun name => pathlib.mk_path (pathlib.root dir)
                          (pathlib.parts dir ++ [name]))
             <$> List.filter (fun name => fnmatch name pattern)
                             (scandir w (pathlib.to_str dir)))
          <$> patterns)), fs,
     (fun pattern => Call (Glob (pathlib.to_str dir) pattern) Ok) <$> patterns).
Proof.
  induction patterns as [|pat patterns IH]; simpl.
  - reflexivity.
  - unfold glob at 1. unfold_monad. rewrite IH. simpl.
    rewrite app_nil_r. reflexivity.
Qed.

(** The driver up to its loop: the folder is made when one is given, the
    six patterns are listed, and nothing was printed or written so far. *)
Lemma convert_directory_run w input_dir output_dir sr fs :
  made_dir w output_dir = None ->
  let files := matched_files w (pathlib.of_str input_dir) in
  exists tm,
    convert_directory_librosa w input_dir output_dir sr fs
    = (let '(r, fs', t) :=
         match files with
         | [] => print ("No supported audio files found in " +:+ input_dir) fs
         | _ => (print ("Found " +:+ pretty (Z.of_nat (length files))
                          +:+ " audio files to convert...");;
                 convert_each w (output_folder input_dir output_dir) files sr) fs
         end in (r, fs', tm ++ t)) /\
    printed tm = [] /\ written_paths tm = [] /\
    (forall d, output_dir = Some d ->
               Call (Mkdir (pathlib.to_str (pathlib.of_str d))) Ok ∈ tm).
Proof.
  intros Hmkdir files.
  pose proof (glob_all_trace w (pathlib.of_str input_dir) supported_formats fs) as Hglob.
  fold (matched_files w (pathlib.of_str input_dir)) in Hglob. fold files in Hglob.
  set (tg := _ <$> supported_formats) in Hglob.
  assert (printed tg = []) as Hsilent by reflexivity.
  assert (written_paths tg = []) as Hnowrite by reflexivity.
  unfold convert_directory_librosa. cbv zeta.
  destruct output_dir as [d|]; cbn [made_dir output_folder] in Hmkdir |- *.
  - exists (Call (Mkdir (pathlib.to_str (pathlib.of_str d))) Ok :: tg).
    split; [|split; [exact Hsilent | split; [exact Hnowrite|]]].
    + unfold mbind, M_bind, bind, extern, ret, print.
      rewrite Hmkdir, Hglob.
      destruct files; [reflexivity|].
      destruct (convert_each _ _ _ _ _) as [[r fs'] t]. simpl. reflexivity.
    + intros d' [= <-]. left.
  - exists tg. split; [|split; [exact Hsilent | split; [exact Hnowrite|]]].
    + unfold mbind, M_bind, bind, ret, print. rewrite Hglob.
      destruct files; [reflexivity|].
      destruct (convert_each _ _ _ _ _) as [[r fs'] t]. simpl. reflexivity.
    + discriminate.
Qed.



(** X13. [convert_directory_librosa] writes nowhere but at the output paths
    [<output folder>/<stem>.wav] of the files it matched: every writing call
    names such a path, and the files at all other paths are as before. *)
Theorem batch_writes_only_wav_files w input_dir output_dir sr fs :
  made_dir w output_dir = None ->
  let files := matched_files w (pathlib.of_str input_dir) in
  let out := output_folder input_dir output_dir in
  let x := convert_directory_librosa w input_dir output_dir sr fs in
  Forall (fun p => exists f, f ∈ files /\ p = wav_file_for out f)
         (written_paths (events_of x)) /\
  forall p, (forall f, f ∈ files -> p <> wav_file_for out f) ->
            files_of x !! p = fs !! p.
Proof.
  intros Hmk files out x. subst x.
  destruct (convert_directory_run w input_dir output_dir sr fs Hmk)
    as (tm & -> & _ & Hnowrite & _).
  fold files. fold out.
  destruct files as [|f files'] eqn:Hfiles.
  - unfold print, events_of, files_of. cbn [fst snd].
    rewrite written_paths_app, Hnowrite. split; [constructor | reflexivity].
  - rewrite <- Hfiles.
    set (msg := "Found " +:+ _).
    unfold mbind, M_bind, bind, print.
    pose proof (convert_each_totals w out sr files fs) as (_ & _ & _ & Hw & Hkeep).
    destruct (convert_each _ _ _ _ _) as [[r g] t].
    unfold events_of, files_of in *. cbn [fst snd] in *.
    rewrite written_paths_app, Hnowrite.
    split; [exact Hw | exact Hkeep].
Qed.

Lemma batch_writes_only_wav_files_witness :
  let x := convert_directory_librosa (demo.world true true true demo.folder)
             "in" None 16000 demo.folder_disk in
  files_of x !! "in/cover.jpg" = Some [Byte.xff; Byte.xd8].
Proof.
  destruct (batch_writes_only_wav_files (demo.world true true true demo.folder)
              "in" None 16000 demo.folder_disk eq_refl) as (_ & Hkeep).
  cbv zeta. rewrite Hkeep; [reflexivity|].
  intros f Hf. vm_compute in Hf.
  apply elem_of_cons in Hf as [-> | Hf]; [vm_compute; discriminate|].
  apply elem_of_cons in Hf as [-> | Hf]; [vm_compute; discriminate|].
  by apply elem_of_nil in Hf.
Defined.

(** X14. In a folder without a matching file, [convert_directory_librosa]
    prints one line, [No supported audio files found in <input_dir>], and
    converts nothing; the output folder it was given has been made all the
    same, before the input folder was listed. *)
Theorem batch_empty_folder w input_dir output_dir sr fs :
  made_dir w output_dir = None ->
  matched_files w (pathlib.of_str input_dir) = [] ->
  let x := convert_directory_librosa w input_dir output_dir sr fs in
  result_of x = Return tt /\
  printed (events_of x) = ["No supported audio files found in " +:+ input_dir] /\
  files_of x = fs /\
  match output_dir with
  | Some d =>
      exists t, events_of x = Call (Mkdir (pathlib.to_str (pathlib.of_str d))) Ok :: t
  | None => True
  end.
Proof.
  intros Hmk Hnone x. subst x.
  unfold convert_directory_librosa. cbv zeta.
  destruct output_dir as [d|]; cbn [made_dir] in Hmk.
  - unfold mbind, M_bind, bind, extern, ret. rewrite Hmk.
    rewrite glob_all_trace.
    fold (matched_files w (pathlib.of_str input_dir)). rewrite Hnone.
    unfold result_of, events_of, files_of, print. cbn [fst snd].
    repeat split. eexists. reflexivity.
  - unfold mbind, M_bind, bind, ret.
    rewrite glob_all_trace.
    fold (matched_files w (pathlib.of_str input_dir)). rewrite Hnone.
    unfold result_of, events_of, files_of, print. cbn [fst snd].
    repeat split.
Qed.

Lemma batch_empty_folder_witness :
  printed (events_of (convert_directory_librosa demo.studio "in" (Some "out") 16000
                        demo.folder_disk))
  = ["No supported audio files found in in"].
Proof.
  destruct (batch_empty_folder demo.studio "in" (Some "out") 16000 demo.folder_disk
              eq_refl eq_refl) as (_ & Hp & _).
  exact Hp.
Defined.

(** ** The output names of the batch driver *)

Lemma pystr_take_drop n (s : string) : pystr.take n s +:+ pystr.drop n s = s.
Proof.
  revert s. induction n as [|n IH]; intros [|c s]; try reflexivity.
  change (String c (pystr.take n s +:+ pystr.drop n s) = String c s).
  f_equal. apply IH.
Qed.

Lemma pystr_drop_drop a b (s : string) :
  pystr.drop a (pystr.drop b s) = pystr.drop (b + a) s.
Proof.
  revert s. induction b as [|b IH]; intros s; simpl; [reflexivity|].
  destruct s as [|c s]; [by destruct a | apply IH].
Qed.

(** A string that ends with [t] is some text followed by [t]. *)
Lemma endswith_app s t : pystr.endswith s t = true -> exists b, s = b +:+ t.
Proof.
  unfold pystr.endswith. intros H. apply andb_prop in H as [H _].
  apply String.eqb_eq in H.
  exists (pystr.take (String.length s - String.length t) s).
  pose proof (pystr_take_drop (String.length s - String.length t) s) as E.
  rewrite H in E. by symmetry.
Qed.

Lemma split_ext_wav (b : string) : split_ext (b +:+ ".wav") = (b, ".wav").
Proof. induction b as [|c b IH]; simpl; [reflexivity | by rewrite IH]. Qed.

(** [p.stem + '.wav'] replaces the extension of the name. *)
Lemma stem_replaces_extension (p : pathlib.Path) :
  pathlib.stem p +:+ ".wav" = replace_extension (pathlib.name p).
Proof.
  unfold pathlib.stem, replace_extension, pystr.rfind.
  destruct (split_ext (pathlib.name p)) as [base ext] eqn:Hsplit.
  destruct (split_ext_rfind _ _ _ 0 (-1) Hsplit) as (Hcat & -> & Hdot).
  destruct Hdot as [-> | [e ->]]; simpl pystr.truthy.
  - rewrite andb_false_r. reflexivity.
  - destruct base as [|b base]; [reflexivity|]. simpl pystr.truthy.
    rewrite Hcat. unfold pystr.len. rewrite string_app_length.
    replace (0 <? 0 + Z.of_nat (String.length (String b base))) with true
      by (symmetry; apply Z.ltb_lt; simpl; lia).
    replace (Z.to_nat (0 + Z.of_nat (String.length (String b base))))
      with (String.length (String b base)) by lia.
    rewrite pystr_take_app.
    destruct e as [|d e].
    + replace (_ <? _) with false by (symmetry; apply Z.ltb_ge; simpl; lia).
      reflexivity.
    + replace (_ <? _) with true by (symmetry; apply Z.ltb_lt; simpl; lia).
      reflexivity.
Qed.

Lemma split_no_sep (s : string) :
  str_contains pathlib.sep s = false -> pystr.split pathlib.sep s = [s].
Proof.
  induction s as [|c s IH]; simpl; [reflexivity|].
  intros H. apply orb_false_elim in H as [Hc Hs].
  rewrite Hc, (IH Hs). reflexivity.
Qed.

(** [Path(name)] for the name of an entry is that one component. *)
Lemma of_str_entry name : entry_name name -> pathlib.of_str name = pathlib.mk_path "" [name].
Proof.
  intros (Hne & Hdot & Hsep). unfold pathlib.of_str, pathlib.splitroot.
  destruct name as [|c name]; [contradiction|].
  pose proof Hsep as Hsep'. simpl in Hsep'. apply orb_false_elim in Hsep' as [Hc _].
  rewrite Hc. rewrite (split_no_sep _ Hsep).
  cbn [List.filter]. unfold pathlib.keep. cbn [pystr.truthy andb].
  destruct (String.eqb_spec (String c name) "."); [contradiction | reflexivity].
Qed.

Lemma str_contains_app c (a b : string) :
  str_contains c (a +:+ b) = str_contains c a || str_contains c b.
Proof. induction a as [|d a IH]; simpl; [reflexivity | by rewrite IH, orb_assoc]. Qed.

Lemma name_child dir name : pathlib.name (child dir name) = name.
Proof. unfold pathlib.name, child. simpl. apply last_last. Qed.

(** The name of an entry with its extension replaced is the name of an
    entry. *)
Lemma replace_extension_entry name :
  entry_name name -> entry_name (replace_extension name).
Proof.
  intros (Hne & Hdot & Hsep). unfold replace_extension.
  destruct (split_ext name) as [base ext] eqn:Hsplit.
  destruct (split_ext_rfind _ _ _ 0 (-1) Hsplit) as (Hcat & _ & _).
  assert (str_contains pathlib.sep base = false) as Hbase.
  { rewrite Hcat, str_contains_app in Hsep. by apply orb_false_elim in Hsep as [? _]. }
  assert (forall b, str_contains pathlib.sep b = false ->
                    entry_name (b +:+ ".wav")) as Hwav.
  { intros b Hb. repeat split.
    - by destruct b.
    - destruct b as [|c b]; [discriminate|]. intros [= _ E]. by destruct b.
    - rewrite str_contains_app, Hb. reflexivity. }
  destruct (_ && _); by apply Hwav.
Qed.

(** The output path of an entry of [dir]: its name with the extension
    replaced, as an entry of the output folder. *)
Lemma wav_file_for_child out dir name :
  entry_name name ->
  wav_file_for out (child dir name)
  = pathlib.to_str (child out (replace_extension name)).
Proof.
  intros Hname. unfold wav_file_for. f_equal.
  rewrite stem_replaces_extension, name_child.
  unfold pathlib.truediv.
  rewrite (of_str_entry _ (replace_extension_entry _ Hname)). reflexivity.
Qed.

Lemma fnmatch_star name lit : fnmatch name (String "*" lit) = pystr.endswith name lit.
Proof. reflexivity. Qed.

(** The matched files are the entries of the folder whose name matches
    one of the patterns. *)
Lemma matched_files_elem w dir f :
  f ∈ matched_files w dir <->
  exists name pattern,
    f = child dir name /\
    name ∈ scandir w (pathlib.to_str dir) /\
    pattern ∈ supported_formats /\
    fnmatch name pattern = true.
Proof.
  unfold matched_files. rewrite list_elem_of_In, in_concat. split.
  - intros (l & Hl & Hf).
    apply list_elem_of_In, list_elem_of_fmap in Hl as (pattern & -> & Hpat).
    apply list_elem_of_In, list_elem_of_fmap in Hf as (name & -> & Hname).
    apply list_elem_of_In, filter_In in Hname as [Hname Hmatch].
    exists name, pattern. repeat split; [by apply list_elem_of_In | exact Hpat | exact Hmatch].
  - intros (name & pattern & -> & Hin & Hpat & Hmatch).
    eexists. split.
    + apply list_elem_of_In, list_elem_of_fmap. exists pattern. split; [reflexivity|].
      exact Hpat.
    + apply list_elem_of_In, list_elem_of_fmap. exists name. split; [reflexivity|].
      apply list_elem_of_In, filter_In. split; [by apply list_elem_of_In | exact Hmatch].
Qed.

(** X15. The batch driver names the output of every file it matched after
    the rule of the default output path: the file's name with its extension
    replaced by [.wav] (appended to a name without extension), as an entry
    of the output folder.  The listing of the input folder holds entry
    names. *)
Theorem batch_output_replaces_extension w input_dir output_dir f :
  Forall entry_name (scandir w (pathlib.to_str (pathlib.of_str input_dir))) ->
  f ∈ matched_files w (pathlib.of_str input_dir) ->
  wav_file_for (output_folder input_dir output_dir) f
  = pathlib.to_str (child (output_folder input_dir output_dir)
                          (replace_extension (pathlib.name f))).
Proof.
  intros Hnames Hf.
  apply matched_files_elem in Hf as (name & pattern & -> & Hin & _).
  rewrite name_child. apply wav_file_for_child.
  rewrite Forall_forall in Hnames. by apply Hnames.
Qed.

Lemma batch_output_replaces_extension_witness :
  wav_file_for (output_folder "in" (Some "out/"))
               (child (pathlib.of_str "in") "take.m4a")
  = "out/take.wav".
Proof.
  rewrite (batch_output_replaces_extension (demo.world true true true demo.album)
             "in" (Some "out/") (child (pathlib.of_str "in") "take.m4a")).
  - reflexivity.
  - repeat (apply Forall_cons; split; [repeat split; discriminate|]). apply Forall_nil_2.
  - apply matched_files_elem. exists "take.m4a", "*.m4a".
    split; [reflexivity|]. split; [left|]. split; [right; left | reflexivity].
Defined.

(** X16. Without an output folder, a [.wav] file of the input folder is
    converted onto itself: the driver matches it, and the output path it
    passes to the converter is the path of the file. *)
Theorem batch_converts_wav_onto_itself w input_dir name :
  name ∈ scandir w (pathlib.to_str (pathlib.of_str input_dir)) ->
  entry_name name ->
  pystr.endswith name ".wav" = true ->
  name <> ".wav" ->
  let f := child (pathlib.of_str input_dir) name in
  f ∈ matched_files w (pathlib.of_str input_dir) /\
  wav_file_for (output_folder input_dir None) f = pathlib.to_str f.
Proof.
  intros Hin Hname Hwav Hbase f. split.
  - apply matched_files_elem. exists name, "*.wav".
    split; [reflexivity|]. split; [exact Hin|]. split; [|exact Hwav].
    unfold supported_formats. do 4 right. left.
  - subst f. cbn [output_folder].
    rewrite (wav_file_for_child _ _ _ Hname). do 2 f_equal.
    destruct (endswith_app _ _ Hwav) as [b ->].
    unfold replace_extension. rewrite split_ext_wav.
    destruct b as [|c b]; [contradiction | reflexivity].
Qed.

Lemma batch_converts_wav_onto_itself_witness :
  wav_file_for (output_folder "in" None) (child (pathlib.of_str "in") "song.wav")
  = "in/song.wav".
Proof.
  destruct (batch_converts_wav_onto_itself (demo.world true true true demo.folder)
              "in" "song.wav") as [_ H].
  - left.
  - repeat split; discriminate.
  - reflexivity.
  - discriminate.
  - exact H.
Defined.

(** Of two endings of one string, the shorter ends the longer. *)
Lemma endswith_two s t1 t2 :
  pystr.endswith s t1 = true -> pystr.endswith s t2 = true ->
  (String.length t1 <= String.length t2)%nat ->
  pystr.endswith t2 t1 = true.
Proof.
  unfold pystr.endswith. intros H1 H2 Hle.
  apply andb_prop in H1 as [H1 L1]. apply andb_prop in H2 as [H2 L2].
  apply String.eqb_eq in H1, H2. apply Nat.leb_le in L1, L2.
  apply andb_true_intro. split; [|by apply Nat.leb_le].
  apply String.eqb_eq.
  rewrite <- H2 at 2. rewrite pystr_drop_drop.
  replace (String.length s - String.length t2 + (String.length t2 - String.length t1))%nat
    with (String.length s - String.length t1)%nat by lia.
  exact H1.
Qed.

(** No name matches two of the patterns. *)
Lemma patterns_exclusive name p1 p2 :
  p1 ∈ supported_formats -> p2 ∈ supported_formats ->
  fnmatch name p1 = true -> fnmatch name p2 = true -> p1 = p2.
Proof.
  unfold supported_formats. intros Hp1 Hp2.
  apply list_elem_of_In in Hp1, Hp2. simpl in Hp1, Hp2.
  destruct Hp1 as [<-|[<-|[<-|[<-|[<-|[<-|[]]]]]]];
    destruct Hp2 as [<-|[<-|[<-|[<-|[<-|[<-|[]]]]]]];
    try reflexivity;
    rewrite !fnmatch_star; intros H1 H2;
    first [ pose proof (endswith_two _ _ _ H1 H2 ltac:(simpl; lia)); discriminate
          | pose proof (endswith_two _ _ _ H2 H1 ltac:(simpl; lia)); discriminate ].
Qed.

Lemma child_inj dir : Inj (=) (=) (child dir).
Proof. intros a b [= H]. by apply app_inj_tail in H as [_ ?]. Qed.

Lemma NoDup_matches dir (names pats : list string) :
  NoDup names -> NoDup pats ->
  (forall n p1 p2, p1 ∈ pats -> p2 ∈ pats ->
                   fnmatch n p1 = true -> fnmatch n p2 = true -> p1 = p2) ->
  NoDup (concat ((fun pattern =>
                    child dir <$> List.filter (fun name => fnmatch name pattern) names)
                   <$> pats)).
Proof.
  intros Hnames. induction pats as [|pat pats IH]; intros Hpats Hexcl; simpl.
  - constructor.
  - apply NoDup_cons in Hpats as [Hpat Hpats].
    apply NoDup_app. split; [|split].
    + apply (@NoDup_fmap_2 _ _ (child dir) (child_inj dir)).
      apply NoDup_ListNoDup, List.NoDup_filter, NoDup_ListNoDup, Hnames.
    + intros x Hx Hx'.
      apply list_elem_of_fmap in Hx as (n & -> & Hn).
      apply list_elem_of_In, filter_In in Hn as [_ Hn].
      apply list_elem_of_In, in_concat in Hx' as (l & Hl & Hx').
      apply list_elem_of_In, list_elem_of_fmap in Hl as (pat' & -> & Hpat').
      apply list_elem_of_In, list_elem_of_fmap in Hx' as (n' & E & Hn').
      apply (child_inj dir) in E. subst n'.
      apply list_elem_of_In, filter_In in Hn' as [_ Hn'].
      assert (pat = pat') as <-.
      { apply (Hexcl n); [left | by right | exact Hn | exact Hn']. }
      contradiction.
    + apply IH; [exact Hpats|].
      intros n p1 p2 H1 H2. apply Hexcl; by right.
Qed.

(** X17. The batch driver converts no file twice: when the listing of the
    input folder names each entry once, so does the list of matched files,
    because no name ends with two of the six extensions. *)
Theorem batch_matches_each_file_once w dir :
  NoDup (scandir w (pathlib.to_str dir)) -> NoDup (matched_files w dir).
Proof.
  intros Hnames. unfold matched_files.
  apply (NoDup_matches dir); [exact Hnames | |].
  - unfold supported_formats. repeat (apply NoDup_cons; split; [|]).
    all: try apply NoDup_nil_2.
    all: intros H; repeat (apply elem_of_cons in H as [H | H]; [discriminate|]);
      by apply elem_of_nil in H.
  - intros n p1 p2. apply patterns_exclusive.
Qed.

Lemma batch_matches_each_file_once_witness :
  NoDup (matched_files (demo.world true true true demo.folder) (pathlib.of_str "in")).
Proof.
  apply batch_matches_each_file_once.
  change (NoDup ["song.wav"; "song.mp3"; "cover.jpg"]).
  repeat (apply NoDup_cons; split;
          [intros H; repeat (apply elem_of_cons in H as [H | H]; [discriminate|]);
           by apply elem_of_nil in H|]).
  apply NoDup_nil_2.
Defined.

(** ** The command line of m4a_ffmpeg_converter.py *)

(** [convert_m4a_to_wav] opens with the version check. *)
Lemma ffmpeg_script_first_event w input output sr fs :
  exists s t, events_of (convert_m4a_to_wav w input output sr fs)
              = Call (SubprocessRun ["ffmpeg"; "-version"]) s :: t.
Proof.
  unfold convert_m4a_to_wav. unfold mbind at 1. unfold M_bind, bind.
  rewrite check_ffmpeg_run.
  destruct (subprocess_run w _ None) as [e|p].
  - destruct (decide _); cbn [negb].
    + destruct ((install_ffmpeg_instructions;; ret false) fs) as [[r g] t].
      unfold events_of. simpl. eauto.
    + unfold events_of. simpl. eauto.
  - destruct (_ fs) as [[r g] t]. unfold events_of. simpl. eauto.
Qed.

Lemma events_bind {A B} (c : M A) (k : A -> M B) fs :
  events_of ((c ≫= k) fs)
  = events_of (c fs) ++
    match result_of (c fs) with
    | Return a => events_of (k a (files_of (c fs)))
    | Raise _ => []
    end.
Proof.
  unfold mbind, M_bind, bind, events_of, result_of, files_of.
  destruct (c fs) as [[[a|e] g] t]; cbn [fst snd].
  - destruct (k a g) as [[r h] t2]. reflexivity.
  - by rewrite app_nil_r.
Qed.

Lemma path_exists_bind {B} is_dir path (k : bool -> M B) fs :
  (m4a_ffmpeg_converter.path_exists is_dir path ≫= k) fs
  = k (bool_decide (is_Some (fs !! path)) || is_dir path) fs.
Proof.
  unfold m4a_ffmpeg_converter.path_exists, mbind, M_bind, bind, read_file, ret.
  destruct (k _ fs) as [[r g] t]. reflexivity.
Qed.

(** X18. The command line makes an external call only for an input path
    that exists: with fewer than two arguments, or with an input path that
    names no file and no folder, it prints one line, calls nothing and
    touches no file; otherwise the first thing it does is the version check
    of ffmpeg. *)
Theorem ffmpeg_main_checks_input_first w is_dir argv fs :
  let x := m4a_ffmpeg_converter.main w is_dir argv fs in
  let ready :=
    exists a input rest,
      argv = a :: input :: rest /\ (is_Some (fs !! input) \/ is_dir input = true) in
  ((exists s t, events_of x = Call (SubprocessRun ["ffmpeg"; "-version"]) s :: t)
   <-> ready) /\
  (~ ready ->
   result_of x = Return tt /\ files_of x = fs /\
   exists line, events_of x = [Print line]).
Proof.
  intros x ready. subst x ready.
  destruct argv as [|a [|input rest]].
  1, 2: split; [split; [intros (s & t & [=]) | intros (? & ? & ? & [=] & _)]
               | intros _; repeat split; eexists; reflexivity].
  cbn [m4a_ffmpeg_converter.main]. rewrite !path_exists_bind.
  destruct (bool_decide (is_Some (fs !! input)) || is_dir input) eqn:Hex; cbn [negb].
  - assert (is_Some (fs !! input) \/ is_dir input = true) as Hready.
    { apply orb_prop in Hex as [H | H]; [left; by apply bool_decide_eq_true in H | by right]. }
    split; [|intros Hn; exfalso; apply Hn; eauto 6].
    split; [intros _; eauto 6 | intros _].
    rewrite events_bind.
    destruct (ffmpeg_script_first_event w input (head rest) 16000 fs) as (s & t & ->).
    simpl. eauto.
  - apply orb_false_elim in Hex as [Hfile Hdir]. apply bool_decide_eq_false in Hfile.
    assert (~ (exists a0 input0 rest0,
                  a :: input :: rest = a0 :: input0 :: rest0 /\
                  (is_Some (fs !! input0) \/ is_dir input0 = true))) as Hn.
    { intros (? & ? & ? & [= <- <- <-] & [H | H]); [contradiction | congruence]. }
    split; [split; [intros (s & t & [=]) | intros H; contradiction]|].
    intros _. repeat split. eexists. reflexivity.
Qed.

(** A successful run of [convert_m4a_to_wav]: the conversion process was
    given the resolved output path and exited with code 0. *)
Lemma ffmpeg_script_success w input output sr fs :
  result_of (convert_m4a_to_wav w input output sr fs) = Return true ->
  exists o err,
    output_or_default input output = inr o /\
    Call (SubprocessRun (ffmpeg_argv input o sr)) (Exit 0 err)
      ∈ events_of (convert_m4a_to_wav w input output sr fs).
Proof.
  unfold convert_m4a_to_wav, check_ffmpeg, install_ffmpeg_instructions.
  unfold result_of, events_of. unfold_monad. simpl.
  repeat oracle; intros [=].
  match goal with H : (returncode ?p =? 0) = true |- _ => apply Z.eqb_eq in H; rewrite H end.
  do 2 eexists. split; [reflexivity|].
  apply list_elem_of_In. simpl. auto 10.
Qed.

Lemma result_bind {A B} (c : M A) (k : A -> M B) fs :
  result_of ((c ≫= k) fs)
  = match result_of (c fs) with
    | Return a => result_of (k a (files_of (c fs)))
    | Raise e => Raise e
    end.
Proof.
  unfold mbind, M_bind, bind, events_of, result_of, files_of.
  destruct (c fs) as [[[a|e] g] t]; cbn [fst snd].
  - destruct (k a g) as [[r h] t2]. reflexivity.
  - reflexivity.
Qed.

(** The lines [convert_m4a_to_wav] prints: none of them opens like the
    line that reports the output file. *)
Lemma ffmpeg_script_lines w input output sr fs p :
  Print ("📁 Output file: " +:+ p) ∉ events_of (convert_m4a_to_wav w input output sr fs).
Proof.
  unfold convert_m4a_to_wav, check_ffmpeg, install_ffmpeg_instructions.
  unfold result_of, events_of. unfold_monad. simpl.
  repeat oracle;
    intros H; apply list_elem_of_In in H; simpl in H;
    repeat (destruct H as [H | H]; [discriminate H|]); exact H.
Qed.

(** X19. The output file the command line reports is the file ffmpeg wrote:
    when the line [Output file: p] is printed, the conversion process was
    launched with [p] as its output argument, at 16000 Hz, and exited with
    code 0.  The output argument of the command line is not the empty
    string. *)
Theorem ffmpeg_main_reports_written_path w is_dir argv fs p :
  argv !! 2%nat <> Some "" ->
  let x := m4a_ffmpeg_converter.main w is_dir argv fs in
  Print ("📁 Output file: " +:+ p) ∈ events_of x ->
  exists input err,
    argv !! 1%nat = Some input /\
    Call (SubprocessRun (ffmpeg_argv input p 16000)) (Exit 0 err) ∈ events_of x /\
    result_of x = Return tt.
Proof.
  intros Hout x. subst x.
  destruct argv as [|a [|input rest]].
  1, 2: intros H; apply list_elem_of_In in H; simpl in H;
        destruct H as [H | []]; discriminate H.
  cbn [m4a_ffmpeg_converter.main]. rewrite !path_exists_bind.
  destruct (bool_decide (is_Some (fs !! input)) || is_dir input); cbn [negb].
  2: { intros H; apply list_elem_of_In in H; simpl in H;
       destruct H as [H | []]; discriminate H. }
  rewrite events_bind, result_bind.
  pose proof (ffmpeg_script_success w input (head rest) 16000 fs) as Hsucc.
  pose proof (ffmpeg_script_lines w input (head rest) 16000 fs p) as Hlines.
  destruct (result_of (convert_m4a_to_wav w input (head rest) 16000 fs))
    as [[|]|e] eqn:Hres.
  - destruct (Hsucc eq_refl) as (o & err & Ho & Hcall).
    assert (m4a_ffmpeg_converter.shown_output input (head rest) = ret o) as Hshown.
    { unfold m4a_ffmpeg_converter.shown_output.
      destruct rest as [|o' rest]; simpl in Ho |- *.
      - rewrite Ho. reflexivity.
      - injection Ho as ->. destruct o as [|c o]; [contradiction | reflexivity]. }
    rewrite Hshown.
    unfold events_of at 2, result_of at 1. unfold_monad. simpl.
    intros H. apply elem_of_app in H as [H | H]; [contradiction|].
    apply list_elem_of_In in H; simpl in H.
    destruct H as [H | [H | []]]; [discriminate H|].
    injection H as H. change (o = p) in H. subst p.
    exists input, err. split; [reflexivity|]. split; [|reflexivity].
    apply elem_of_app. left. exact Hcall.
  - unfold events_of at 2. unfold_monad. simpl.
    intros H. apply elem_of_app in H as [H | H]; [contradiction|].
    apply list_elem_of_In in H; simpl in H.
    destruct H as [H | []]; discriminate H.
  - rewrite app_nil_r. intros H. contradiction.
Qed.

Lemma ffmpeg_main_reports_written_path_witness :
  let x := m4a_ffmpeg_converter.main demo.studio (fun _ => false)
             ["m4a_ffmpeg_converter.py"; "voice.m4a"] demo.disk in
  Print "📁 Output file: voice.wav" ∈ events_of x /\
  exists err,
    Call (SubprocessRun (ffmpeg_argv "voice.m4a" "voice.wav" 16000)) (Exit 0 err)
      ∈ events_of x.
Proof.
  cbv zeta.
  assert (Print ("📁 Output file: " +:+ "voice.wav")
            ∈ events_of (m4a_ffmpeg_converter.main demo.studio (fun _ => false)
                           ["m4a_ffmpeg_converter.py"; "voice.m4a"] demo.disk)) as Hline.
  { apply list_elem_of_In. vm_compute. auto 10. }
  split; [exact Hline|].
  destruct (ffmpeg_main_reports_written_path demo.studio (fun _ => false)
              ["m4a_ffmpeg_converter.py"; "voice.m4a"] demo.disk "voice.wav")
    as (input & err & [= <-] & Hcall & _); [discriminate | exact Hline |].
  exists err. exact Hcall.
Defined.
